(** * Muse2 Chrome Dino game: blink trigger and band-power smoothing

    Shallow embedding of [neurofeedback.py].  The script connects to an EEG
    stream, then loops: pull a chunk, keep channel 0, press the space bar when
    the peak-to-peak amplitude of the chunk exceeds [BLINK_THRESHOLD], push the
    chunk through the notch filter into a fixed-length sample buffer, estimate
    four band powers on the newest epoch, push them into a second buffer and
    report the column-wise mean of that buffer.

    Numbers are IEEE 754 binary64 values, as numpy and Python have them; they
    are represented by the Standard Library's [spec_float], whose operations
    are ordinary, executable Rocq functions. *)

From Stdlib Require Import ZArith QArith Qround List Bool Lia.
From Stdlib Require Import Floats.SpecFloat Floats.PrimFloat Floats.FloatOps.
Import ListNotations.

Set Warnings "-inexact-float".
Local Open Scope Z_scope.

(** ** Binary64 arithmetic *)

Module F64.

Definition float64 : Type := spec_float.

Definition prec : Z := 53.
Definition emax : Z := 1024.

Definition add : float64 -> float64 -> float64 := SFadd prec emax.
Definition sub : float64 -> float64 -> float64 := SFsub prec emax.
Definition mul : float64 -> float64 -> float64 := SFmul prec emax.
Definition div : float64 -> float64 -> float64 := SFdiv prec emax.

(** [x < y] and [x > y]; both are false as soon as one side is NaN. *)
Definition ltb : float64 -> float64 -> bool := SFltb.
Definition gtb (x y : float64) : bool := SFltb y x.

Definition zero : float64 := S754_zero false.

(** Conversion of a Python [int] to a float (round to nearest even). *)
Definition of_Z (z : Z) : float64 := binary_normalize prec emax z 0 false.

(** The real number a finite float stands for, as a rational. *)
Definition to_Q (x : float64) : option Q :=
  match x with
  | S754_zero _ => Some 0%Q
  | S754_finite s m e =>
      let sm := if s then Z.neg m else Z.pos m in
      Some (if 0 <=? e then inject_Z (sm * 2 ^ e)
            else Qmake sm (Pos.pow 2 (Z.to_pos (- e))))
  | _ => None
  end.

(** [int(np.floor(x))]; [None] where Python raises (NaN, infinities). *)
Definition floor_int (x : float64) : option Z :=
  match x with
  | S754_zero _ => Some 0
  | S754_finite s m e =>
      let sm := if s then Z.neg m else Z.pos m in
      Some (if 0 <=? e then sm * 2 ^ e else sm / 2 ^ (- e))
  | _ => None
  end.

(** [int(x)]: truncation towards zero; [None] where Python raises. *)
Definition trunc_int (x : float64) : option Z :=
  match x with
  | S754_zero _ => Some 0
  | S754_finite s m e =>
      let sm := if s then Z.neg m else Z.pos m in
      Some (if 0 <=? e then sm * 2 ^ e else Z.quot sm (2 ^ (- e)))
  | _ => None
  end.

Definition is_finite (x : float64) : bool :=
  match x with
  | S754_zero _ | S754_finite _ _ _ => true
  | _ => false
  end.

End F64.

Import F64.

(** ** Experimental parameters (module level constants of the script) *)

(** [class Band]: column index of each band in a band-power row. *)
Inductive Band : Type := Delta | Theta | Alpha | Beta.

Definition Band_index (b : Band) : Z :=
  match b with Delta => 0 | Theta => 1 | Alpha => 2 | Beta => 3 end.

Definition BUFFER_LENGTH : Z := 5.
Definition EPOCH_LENGTH : Z := 1.

(** The literal [0.8]: the binary64 value nearest to 8/10. *)
Definition OVERLAP_LENGTH : float64 := Eval vm_compute in Prim2SF 0.8%float.

(** [SHIFT_LENGTH = EPOCH_LENGTH - OVERLAP_LENGTH], an [int] minus a float. *)
Definition SHIFT_LENGTH : float64 := sub (of_Z EPOCH_LENGTH) OVERLAP_LENGTH.

Definition INDEX_CHANNEL : list nat := [0%nat].

Definition BLINK_THRESHOLD : Z := 200.

(** ** Exceptions and the trace of visible effects *)

Inductive Exn : Type :=
| RuntimeError      (* raise RuntimeError('Can't find EEG stream.') *)
| IndexError        (* numpy indexing *)
| ValueError        (* max()/min() of an empty sequence, bad shapes, int(nan) *)
| OverflowError     (* int(inf) *)
| InsufficientEpochLength. (* the epoch extractor asked for more than the buffer holds *)

(** A band-power row: the four columns of [band_buffer]. *)
Record BandPowerVector : Type := mkBands {
  delta : float64;
  theta : float64;
  alpha : float64;
  beta  : float64
}.

Definition band (b : Band) (v : BandPowerVector) : float64 :=
  match b with
  | Delta => delta v | Theta => theta v | Alpha => alpha v | Beta => beta v
  end.

(** ** Section 2 of the script: the number of band-power rows *)

(** [int(np.floor((BUFFER_LENGTH - EPOCH_LENGTH) / SHIFT_LENGTH + 1))] *)
Definition n_win_test : option Z :=
  floor_int (add (div (of_Z (BUFFER_LENGTH - EPOCH_LENGTH)) SHIFT_LENGTH) (of_Z 1)).

(** The same expression in exact rational arithmetic, with 0.8 = 8/10. *)
Definition n_win_test_exact : Z :=
  Qfloor ((inject_Z BUFFER_LENGTH - inject_Z EPOCH_LENGTH)
          / (inject_Z EPOCH_LENGTH - (8 # 10)) + 1)%Q.

(** ** Programs: a trace of visible effects and a result or an exception *)

Inductive Event : Type :=
| EvPrintLooking                      (* print('Looking for an EEG stream...') *)
| EvResolve                           (* resolve_byprop('type', 'EEG', timeout=2) *)
| EvPrintStart                        (* print("Start acquiring data") *)
| EvOpenInlet                         (* StreamInlet(streams[0], max_chunklen=12) *)
| EvPrintHint                         (* print('Press Ctrl-C in the console ...') *)
| EvPull (max_samples : Z)            (* inlet.pull_chunk(timeout=1, max_samples=...) *)
| EvPrintDiff (signal_diff : float64) (* print("Signal Difference:", signal_diff) *)
| EvPress                             (* pyautogui.press('space') *)
| EvPrintBlink                        (* print("Blink detected, Dino jumps!") *)
| EvPrintBands (smooth : BandPowerVector)
| EvPrintClosing.                     (* print('Closing!') *)

Definition Prog (A : Type) : Type := (list Event * (Exn + A))%type.

Definition ret {A : Type} (a : A) : Prog A := ([], inr a).

Definition bind {A B : Type} (m : Prog A) (k : A -> Prog B) : Prog B :=
  match m with
  | (t, inl e) => (t, inl e)
  | (t, inr a) => let (t', r) := k a in (t ++ t', r)
  end.

Definition emit (e : Event) : Prog unit := ([e], inr tt).
Definition raise {A : Type} (e : Exn) : Prog A := ([], inl e).
Definition lift {A : Type} (r : Exn + A) : Prog A := ([], r).

Definition of_option {A : Type} (e : Exn) (o : option A) : Exn + A :=
  match o with Some a => inr a | None => inl e end.

Declare Scope prog_scope.
Delimit Scope prog_scope with prog.
Notation "'let*' x ':=' c1 'in' c2" := (bind c1 (fun x => c2))
  (at level 10, x name, c1 at level 100, c2 at level 200) : prog_scope.
Notation "'run' c1 'in' c2" := (bind c1 (fun _ => c2))
  (at level 10, c1 at level 100, c2 at level 200) : prog_scope.

(** Did the run press the space bar? *)
Definition is_press (e : Event) : bool :=
  match e with EvPress => true | _ => false end.

Definition fired (t : list Event) : bool := existsb is_press t.

Definition is_pull (e : Event) : bool :=
  match e with EvPull _ => true | _ => false end.

(** ** Python and numpy primitives used by the loop *)

(** [np.array(eeg_data)[:, INDEX_CHANNEL]] with [INDEX_CHANNEL = [0]].
    [eeg_data] is the list of samples of the pull, one list of channel values
    per sample.  An empty pull gives an array of shape (0,), which cannot be
    indexed with two indices; rows of unequal length make no 2-d array; a
    channel index beyond the row length is out of bounds.  The result has
    shape (n, 1): one float per row, kept here as a list of floats. *)
Definition select_channel (eeg_data : list (list float64)) : Exn + list float64 :=
  match eeg_data with
  | [] => inl IndexError
  | r0 :: _ =>
      if forallb (fun r => Nat.eqb (length r) (length r0)) eeg_data
      then if forallb (fun i => Nat.ltb i (length r0)) INDEX_CHANNEL
           then inr (map (fun r => nth (hd 0%nat INDEX_CHANNEL) r zero) eeg_data)
           else inl IndexError
      else inl ValueError
  end.

(** Python's builtin [max]: keep the first item, replace it by each later
    item that compares greater. *)
Definition py_max (xs : list float64) : Exn + float64 :=
  match xs with
  | [] => inl ValueError
  | x :: rest => inr (fold_left (fun m item => if gtb item m then item else m) rest x)
  end.

(** Python's builtin [min]. *)
Definition py_min (xs : list float64) : Exn + float64 :=
  match xs with
  | [] => inl ValueError
  | x :: rest => inr (fold_left (fun m item => if ltb item m then item else m) rest x)
  end.

(** [np.zeros((n, ...))]: negative dimensions are refused. *)
Definition np_zeros {A : Type} (z : A) (n : Z) : Exn + list A :=
  if n <? 0 then inl ValueError else inr (repeat z (Z.to_nat n)).

Definition zero_row : BandPowerVector := mkBands zero zero zero zero.

(** [np.mean(a, axis=0)] of one column of a row-major array: the rows are
    added one after the other, starting from 0 (the reduction runs along the
    slow axis, so the partial sums are not regrouped), and the sum is divided
    by the number of rows. *)
Definition mean_column (col : list float64) : float64 :=
  div (fold_left add col zero) (of_Z (Z.of_nat (length col))).

Definition np_mean_axis0 (a : list BandPowerVector) : BandPowerVector :=
  mkBands (mean_column (map delta a)) (mean_column (map theta a))
          (mean_column (map alpha a)) (mean_column (map beta a)).

(** ** The helper module [utils]

    [utils.update_buffer], [utils.get_last_data] and
    [utils.compute_band_powers] are imported by the script; their contracts
    are sections 4.1 to 4.3 of the design document. *)

(** Modelled from the spec: the stateful notch filter of [utils] (sections 2
    and 4.1), a recursive filter on elements of type [A] with a delay line of
    type [S]: the state it starts from when none is carried, and what one
    input sample does to the output and to the state. *)
Record Filter (A S : Type) : Type := mkFilter {
  filter_zi   : S;
  filter_step : S -> A -> A * S
}.
Arguments mkFilter {A S} _ _.
Arguments filter_zi {A S} _.
Arguments filter_step {A S} _ _ _.

Section UpdateBuffer.

Context {A S : Type}.
Variable F : Filter A S.

(** One pass of the filter over a chunk, sample after sample. *)
Fixpoint run_filter (st : S) (xs : list A) : list A * S :=
  match xs with
  | [] => ([], st)
  | x :: rest =>
      let (y, st1) := filter_step F st x in
      let (ys, st2) := run_filter st1 rest in
      (y :: ys, st2)
  end.

(** Modelled from the spec: the stateful notch filter of [utils] (section
    4.1): the chunk goes through the filter with the carried state as its
    delay line, an absent state is first initialised by the filter's
    initial-condition rule, the updated state is returned, and an empty
    chunk leaves the state as it is. *)
Definition apply_filter (filter_state : option S) (chunk : list A)
  : list A * option S :=
  match chunk with
  | [] => ([], filter_state)
  | _ :: _ =>
      let st := match filter_state with Some s => s | None => filter_zi F end in
      let (ys, st') := run_filter st chunk in
      (ys, Some st')
  end.

(** The last [L] elements of a sequence. *)
Definition keep_last (L : nat) (xs : list A) : list A :=
  skipn (length xs - L) xs.

(** Modelled from the spec: [utils.update_buffer] (section 4.1):
    [result = concat(buffer, filteredChunk)[-L:]] with [L] the length of
    the buffer, and the filter applied only when [notch] is set. *)
Definition update_buffer (data_buffer new_data : list A) (notch : bool)
           (filter_state : option S) : list A * option S :=
  let (filtered, filter_state') :=
    if notch then apply_filter filter_state new_data
    else (new_data, filter_state) in
  (keep_last (length data_buffer) (data_buffer ++ filtered), filter_state').

(** Modelled from the spec: [utils.get_last_data] (section 4.2): the final
    [n] elements of the buffer; it fails when [n] exceeds the length. *)
Definition get_last_data (data_buffer : list A) (n : Z) : Exn + list A :=
  if Z.of_nat (length data_buffer) <? n then inl InsufficientEpochLength
  else inr (keep_last (Z.to_nat n) data_buffer).

End UpdateBuffer.

(** The filter works column by column; on band-power rows it keeps one delay
    line per band.  (The script never enables it on that buffer.) *)
Definition row_filter {S : Type} (F : Filter float64 S)
  : Filter BandPowerVector (S * S * S * S) :=
  mkFilter (filter_zi F, filter_zi F, filter_zi F, filter_zi F)
    (fun st v =>
       let '(s0, s1, s2, s3) := st in
       let (d, s0') := filter_step F s0 (delta v) in
       let (t, s1') := filter_step F s1 (theta v) in
       let (a, s2') := filter_step F s2 (alpha v) in
       let (b, s3') := filter_step F s3 (beta v) in
       (mkBands d t a b, (s0', s1', s2', s3'))).

(** ** The script *)

(** What the environment supplies to one run: the streams found by the
    discovery, the nominal sampling rate of the stream, and the successive
    results of [pull_chunk] until the user interrupts the loop. *)
Record Env : Type := mkEnv {
  streams       : list nat;
  nominal_srate : float64;
  pulls         : list (list (list float64))
}.

Section Script.

Context {FState : Type}.
(** The notch filter of [utils] and its band-power estimator. *)
Variable notch : Filter float64 FState.
Variable compute_band_powers : list float64 -> Z -> BandPowerVector.

(** The variables the loop carries from one iteration to the next. *)
Record LoopState : Type := mkState {
  eeg_buffer   : list float64;
  filter_state : option FState;
  band_buffer  : list BandPowerVector
}.

Local Open Scope prog_scope.

(** Lines 92 to 100: the blink trigger. *)
Definition detect_blink (ch_data : list float64) : Prog unit :=
let* mx := lift (py_max ch_data) in
let* mn := lift (py_min ch_data) in
let signal_diff := sub mx mn in
run emit (EvPrintDiff signal_diff) in
if gtb signal_diff (of_Z BLINK_THRESHOLD)
then (run emit EvPress in emit EvPrintBlink)
else ret tt.

(** Lines 88 to 126: what one iteration does with the pulled data. *)
Definition process_chunk (fs : Z) (st : LoopState)
         (eeg_data : list (list float64)) : Prog LoopState :=
let* ch_data := lift (select_channel eeg_data) in
run detect_blink ch_data in
let (eeg_buffer', filter_state') :=
  update_buffer notch (eeg_buffer st) ch_data true (filter_state st) in
let* data_epoch := lift (get_last_data eeg_buffer' (EPOCH_LENGTH * fs)) in
let band_powers := compute_band_powers data_epoch fs in
let (band_buffer', _) :=
  update_buffer (row_filter notch) (band_buffer st) [band_powers] false None in
let smooth_band_powers := np_mean_axis0 band_buffer' in
run emit (EvPrintBands smooth_band_powers) in
ret (mkState eeg_buffer' filter_state' band_buffer').

(** What a successful iteration leaves behind, spelled out. *)
Definition next_state (fs : Z) (st : LoopState) (ch_data : list float64)
  : Exn + LoopState :=
  let sample_update :=
    update_buffer notch (eeg_buffer st) ch_data true (filter_state st) in
  match get_last_data (fst sample_update) (EPOCH_LENGTH * fs) with
  | inl e => inl e
  | inr data_epoch =>
      inr (mkState (fst sample_update) (snd sample_update)
             (fst (update_buffer (row_filter notch) (band_buffer st)
                     [compute_band_powers data_epoch fs] false None)))
  end.

(** Lines 83 to 126: one iteration of [while True]. *)
Definition iteration (fs : Z) (st : LoopState)
         (eeg_data : list (list float64)) : Prog LoopState :=
let* max_samples := lift (of_option OverflowError
                            (trunc_int (mul SHIFT_LENGTH (of_Z fs)))) in
run emit (EvPull max_samples) in
process_chunk fs st eeg_data.

(** The loop runs over the pulls the environment delivers; when they are
  used up the user's interrupt ends it. *)
Fixpoint loop (fs : Z) (st : LoopState) (data : list (list (list float64)))
: Prog LoopState :=
match data with
| [] => ret st
| eeg_data :: rest =>
    let* st' := iteration fs st eeg_data in loop fs st' rest
end.

(** Lines 65 to 73: the buffers before the first iteration. *)
Definition init (fs : Z) : Exn + LoopState :=
match np_zeros zero (fs * BUFFER_LENGTH) with
| inl e => inl e
| inr eeg =>
    match of_option ValueError n_win_test with
    | inl e => inl e
    | inr n =>
        match np_zeros zero_row n with
        | inl e => inl e
        | inr bands => inr (mkState eeg None bands)
        end
    end
end.

(** [int(info.nominal_srate())] *)
Definition sampling_rate (srate : float64) : Exn + Z :=
match srate with
| S754_nan => inl ValueError
| S754_infinity _ => inl OverflowError
| _ => of_option ValueError (trunc_int srate)
end.

(** The whole script. *)
Definition main (env : Env) : Prog LoopState :=
run emit EvPrintLooking in
run emit EvResolve in
if Nat.eqb (length (streams env)) 0 then raise RuntimeError
else
  run emit EvPrintStart in
  run emit EvOpenInlet in
  let* fs := lift (sampling_rate (nominal_srate env)) in
  let* st0 := lift (init fs) in
  run emit EvPrintHint in
  let* st := loop fs st0 (pulls env) in
  run emit EvPrintClosing in
  ret st.

(** The states the loop can be in at the start of an iteration. *)
Inductive reachable (fs : Z) : LoopState -> Prop :=
| reach_init : forall st, init fs = inr st -> reachable fs st
| reach_step : forall st eeg_data t st',
    reachable fs st ->
    process_chunk fs st eeg_data = (t, inr st') ->
    reachable fs st'.

End Script.

Arguments mkState {FState} _ _ _.
Arguments eeg_buffer {FState} _.
Arguments filter_state {FState} _.
Arguments band_buffer {FState} _.

(** ** Instances used to run the model on concrete inputs *)

(** A first-order recursive filter: [y = x + s], next state [s' = y / 2]. *)
Definition example_notch : Filter float64 float64 :=
  mkFilter zero (fun s x => let y := add x s in (y, div y (of_Z 2))).

(** An estimator that reports the mean of the epoch in every band. *)
Definition example_band_powers (epoch : list float64) (fs : Z) : BandPowerVector :=
  let m := mean_column epoch in mkBands m m m m.

(** The literal [0.1], and an estimator that always reports it. *)
Definition tenth : float64 := Eval vm_compute in Prim2SF 0.1%float.

Definition constant_band_powers (epoch : list float64) (fs : Z) : BandPowerVector :=
  mkBands tenth tenth tenth tenth.

Definition tenth_row : BandPowerVector := mkBands tenth tenth tenth tenth.

(** One sample of a five-channel headset: [z] on channel 0, 0 elsewhere. *)
Definition muse_sample (z : Z) : list float64 := [of_Z z; zero; zero; zero; zero].

(** A chunk with one sample at amplitude 300 and the rest at 0. *)
Definition blink_chunk : list (list float64) :=
  [muse_sample 0; muse_sample 300; muse_sample 0].

(** The state a 256 Hz stream starts from, and the state after [blink_chunk]. *)
Definition example_state0 : @LoopState float64 :=
  mkState (repeat zero 1280) None (repeat zero_row 21).

Definition example_state1 : @LoopState float64 :=
  match process_chunk example_notch example_band_powers 256 example_state0 blink_chunk with
  | (_, inr st) => st
  | (_, inl _) => example_state0
  end.

(** A run on a 256 Hz stream that pulls 21 one-sample chunks of silence. *)
Definition warmup_env : Env :=
  mkEnv [0%nat] (of_Z 256) (repeat [muse_sample 0] 21).

(** The arithmetic mean of a column in exact rational arithmetic. *)
Definition mean_exact (col : list Q) : Q :=
  (fold_left Qplus col 0 / inject_Z (Z.of_nat (length col)))%Q.

(** ** Reading a trace *)

Definition is_closing (e : Event) : bool :=
  match e with EvPrintClosing => true | _ => false end.

Definition is_report (e : Event) : bool :=
  match e with EvPrintBands _ => true | _ => false end.

Definition is_diff (e : Event) : bool :=
  match e with EvPrintDiff _ => true | _ => false end.

(** How many events of a kind a trace holds. *)
Definition count_events (p : Event -> bool) (t : list Event) : nat :=
  length (filter p t).

(** Lines 88 to 98 as a test on the pulled data alone: does this pull press
    the key? *)
Definition chunk_blinks (eeg_data : list (list float64)) : bool :=
  match select_channel eeg_data with
  | inl _ => false
  | inr ch_data =>
      match py_max ch_data, py_min ch_data with
      | inr mx, inr mn => gtb (sub mx mn) (of_Z BLINK_THRESHOLD)
      | _, _ => false
      end
  end.

(** Line 84: [int(SHIFT_LENGTH * fs)], the most samples one pull may return. *)
Definition max_samples (fs : Z) : option Z :=
  trunc_int (mul SHIFT_LENGTH (of_Z fs)).

(** A fifth of the sampling rate rounded down, one less when the rate is a
    positive multiple of five. *)
Definition pull_size (fs : Z) : Z :=
  if fs mod 5 =? 0 then (if fs =? 0 then 0 else fs / 5 - 1) else fs / 5.

Definition pull_size_agrees (n : nat) : bool :=
  match max_samples (Z.of_nat n) with
  | Some m => m =? pull_size (Z.of_nat n)
  | None => false
  end.

(** Three pulls on a 256 Hz stream: a blink, silence, a blink. *)
Definition example_pulls : list (list (list float64)) :=
  [blink_chunk; [muse_sample 0]; blink_chunk].

Definition example_env : Env := mkEnv [0%nat] (of_Z 256) example_pulls.

Definition example_final : @LoopState float64 :=
  match snd (main example_notch example_band_powers example_env) with
  | inr st => st
  | inl _ => example_state0
  end.

(** A pull whose first sample is NaN and whose second is at amplitude 300. *)
Definition nan_first_chunk : list (list float64) :=
  [[S754_nan; zero; zero; zero; zero]; muse_sample 300].

(** A pull with a NaN between a sample at 0 and a sample at 300. *)
Definition nan_inside_chunk : list (list float64) :=
  [muse_sample 0; [S754_nan; zero; zero; zero; zero]; muse_sample 300].

(** Is this float a NaN? *)
Definition is_nan (x : float64) : bool :=
  match x with S754_nan => true | _ => false end.

(** Lines 79 to 129 when the interrupt may also land inside a blocking
    [pull_chunk]: the delivered pulls are processed one after the other;
    then either the interrupt arrives between two iterations, or
    ([in_pull]) one more iteration has computed [max_samples] and called
    [pull_chunk], and the interrupt is raised from inside that call. *)
Definition interrupted_loop {FState : Type} (notch : Filter float64 FState)
           (compute_band_powers : list float64 -> Z -> BandPowerVector)
           (in_pull : bool) (fs : Z) (st : LoopState)
           (data : list (list (list float64))) : Prog LoopState :=
  bind (loop notch compute_band_powers fs st data)
       (fun st' =>
          if in_pull
          then bind (lift (of_option OverflowError (max_samples fs)))
                    (fun m => bind (emit (EvPull m)) (fun _ => ret st'))
          else ret st').

(** ** Properties *)

(** *** Binary64 facts *)

Lemma sub_self (x : float64) :
  sub x x = zero \/ sub x x = S754_nan.
Proof.
  unfold sub, SFsub.
  destruct x as [s | s | | s m e].
  - destruct s; left; reflexivity.
  - destruct s; right; reflexivity.
  - right; reflexivity.
  - left. cbv zeta. rewrite Z.sub_diag. reflexivity.
Qed.

Lemma sub_self_finite (x : float64) :
  is_finite x = true -> sub x x = zero.
Proof.
  intros H. destruct (sub_self x) as [E | E]; [exact E |].
  destruct x as [s | s | | s m e]; try discriminate H.
  - destruct s; discriminate E.
  - unfold sub, SFsub in E. cbv zeta in E. rewrite Z.sub_diag in E. discriminate E.
Qed.

Lemma sub_self_below_threshold (x : float64) :
  gtb (sub x x) (of_Z BLINK_THRESHOLD) = false.
Proof.
  destruct (sub_self x) as [E | E]; rewrite E; reflexivity.
Qed.

(** *** The number of band-power rows *)

(** The binary64 [SHIFT_LENGTH] lies just below 2/10, so the quotient
    4 / SHIFT_LENGTH lies just above 20; the floor is not affected. *)
Lemma SHIFT_LENGTH_value :
  exists q : Q,
    to_Q SHIFT_LENGTH = Some q /\
    (q < 2 # 10)%Q /\ ((2 # 10) - q < 1 # 10000000000000000)%Q.
Proof.
  eexists. split; [vm_compute; reflexivity |].
  split; vm_compute; reflexivity.
Qed.

(** C2: the band-power buffer is created with
    floor((BUFFER_LENGTH - EPOCH_LENGTH) / SHIFT_LENGTH + 1) rows; the binary64
    evaluation of the script and the exact rational evaluation agree, and
    both give 21 for the configured constants. *)
Theorem band_buffer_rows :
  n_win_test = Some n_win_test_exact /\
  n_win_test_exact = 21 /\
  forall (FState : Type) (fs : nat),
    exists st : @LoopState FState,
      init (Z.of_nat fs) = inr st /\
      band_buffer st = repeat zero_row 21 /\
      length (band_buffer st) = 21%nat.
Proof.
  split; [vm_compute; reflexivity |].
  split; [vm_compute; reflexivity |].
  intros FState fs. unfold init, np_zeros.
  assert (H : (Z.of_nat fs * BUFFER_LENGTH <? 0) = false).
  { apply Z.ltb_ge. unfold BUFFER_LENGTH. lia. }
  rewrite H.
  replace n_win_test with (Some 21) by (vm_compute; reflexivity).
  cbn [of_option]. replace (21 <? 0) with false by reflexivity.
  eexists. split; [reflexivity |]. cbn [band_buffer].
  split; [reflexivity | apply repeat_length].
Qed.

(** *** The drop-oldest buffer and the filter *)

Section UpdateBufferFacts.

Context {A S : Type}.
Variable F : Filter A S.

Lemma run_filter_length (xs : list A) :
  forall st, length (fst (run_filter F st xs)) = length xs.
Proof.
  induction xs as [| x rest IH]; intros st; cbn [run_filter].
  - reflexivity.
  - destruct (filter_step F st x) as [y st1].
    specialize (IH st1). destruct (run_filter F st1 rest) as [ys st2].
    cbn [fst length] in *. now rewrite IH.
Qed.

Lemma run_filter_app (xs ys : list A) :
  forall st,
    run_filter F st (xs ++ ys) =
    (fst (run_filter F st xs) ++ fst (run_filter F (snd (run_filter F st xs)) ys),
     snd (run_filter F (snd (run_filter F st xs)) ys)).
Proof.
  induction xs as [| x rest IH]; intros st; cbn [run_filter app].
  - cbn [fst snd app]. now destruct (run_filter F st ys).
  - destruct (filter_step F st x) as [y st1].
    rewrite (IH st1).
    destruct (run_filter F st1 rest) as [o1 s1]. cbn [fst snd].
    destruct (run_filter F s1 ys) as [o2 s2]. reflexivity.
Qed.

Lemma apply_filter_length (fs : option S) (xs : list A) :
  length (fst (apply_filter F fs xs)) = length xs.
Proof.
  destruct xs as [| x rest]; [reflexivity |].
  unfold apply_filter.
  pose proof (run_filter_length (x :: rest)
                (match fs with Some s => s | None => filter_zi F end)) as H.
  destruct (run_filter F _ (x :: rest)) as [ys st']. exact H.
Qed.

Lemma keep_last_length (L : nat) (xs : list A) :
  (L <= length xs)%nat -> length (keep_last L xs) = L.
Proof.
  intros H. unfold keep_last. rewrite length_skipn. lia.
Qed.

Lemma update_buffer_length (buffer chunk : list A) (notch : bool) (fs : option S) :
  length (fst (update_buffer F buffer chunk notch fs)) = length buffer.
Proof.
  unfold update_buffer.
  destruct (if notch then apply_filter F fs chunk else (chunk, fs))
    as [filtered fs'].
  cbn [fst]. apply keep_last_length. rewrite length_app. lia.
Qed.

Lemma update_buffer_empty (buffer : list A) (notch : bool) (fs : option S) :
  update_buffer F buffer [] notch fs = (buffer, fs).
Proof.
  unfold update_buffer, keep_last. destruct notch; cbn [apply_filter];
    rewrite app_nil_r, Nat.sub_diag; reflexivity.
Qed.

(** Filtering two chunks in a row, the state of the first call handed to the
    second, against filtering their concatenation in one call. *)
Lemma apply_filter_app (fs : option S) (c1 c2 : list A) :
  apply_filter F fs (c1 ++ c2) =
  (fst (apply_filter F fs c1) ++ fst (apply_filter F (snd (apply_filter F fs c1)) c2),
   snd (apply_filter F (snd (apply_filter F fs c1)) c2)).
Proof.
  destruct c1 as [| x1 r1].
  - cbn [app apply_filter fst snd]. now destruct (apply_filter F fs c2).
  - destruct c2 as [| x2 r2].
    + rewrite app_nil_r. cbn [apply_filter].
      destruct (run_filter F _ (x1 :: r1)) as [o1 s1]. cbn [fst snd].
      now rewrite app_nil_r.
    + change ((x1 :: r1) ++ x2 :: r2) with (x1 :: (r1 ++ x2 :: r2)).
      unfold apply_filter at 1.
      change (x1 :: (r1 ++ x2 :: r2)) with ((x1 :: r1) ++ x2 :: r2).
      rewrite run_filter_app.
      unfold apply_filter.
      destruct (run_filter F _ (x1 :: r1)) as [o1 s1]. cbn [fst snd].
      destruct (run_filter F s1 (x2 :: r2)) as [o2 s2]. reflexivity.
Qed.

Lemma keep_last_app (L : nat) (xs ys : list A) :
  (L <= length xs)%nat ->
  keep_last L (keep_last L xs ++ ys) = keep_last L (xs ++ ys).
Proof.
  intros H. unfold keep_last.
  rewrite !length_app, length_skipn.
  replace (length xs - (length xs - L) + length ys - L)%nat with (length ys) by lia.
  replace (length xs + length ys - L)%nat
    with (length ys + (length xs - L))%nat by lia.
  rewrite <- skipn_skipn.
  f_equal. rewrite skipn_app.
  replace (length xs - L - length xs)%nat with 0%nat by lia. reflexivity.
Qed.

End UpdateBufferFacts.

(** *** Programs *)

Lemma bind_lift_inr {A B : Type} (a : A) (k : A -> Prog B) :
  bind (lift (inr a)) k = k a.
Proof. unfold bind, lift. destruct (k a) as [t r]. reflexivity. Qed.

Lemma bind_lift_inl {A B : Type} (e : Exn) (k : A -> Prog B) :
  bind (lift (inl e)) k = ([], inl e).
Proof. reflexivity. Qed.

Lemma bind_emit {B : Type} (ev : Event) (k : unit -> Prog B) :
  bind (emit ev) k = (ev :: fst (k tt), snd (k tt)).
Proof. unfold bind, emit. destruct (k tt) as [t r]. reflexivity. Qed.

Lemma fired_app (t1 t2 : list Event) :
  fired (t1 ++ t2) = fired t1 || fired t2.
Proof. apply existsb_app. Qed.

(** *** Comparisons *)

Lemma eqb_not_gtb (a b : float64) :
  SFeqb a b = true -> gtb a b = false.
Proof.
  unfold gtb, ltb, SFltb, SFeqb.
  destruct a as [[] | [] | | [] m1 e1], b as [[] | [] | | [] m2 e2];
    cbn; try (intros; reflexivity || discriminate).
  - destruct (Z.compare_spec e1 e2); try discriminate; subst.
    rewrite Z.compare_refl.
    change (Pos.compare_cont Eq m1 m2) with (Pos.compare m1 m2).
    change (Pos.compare_cont Eq m2 m1) with (Pos.compare m2 m1).
    destruct (Pos.compare_spec m1 m2); try discriminate; subst.
    now rewrite Pos.compare_refl.
  - destruct (Z.compare_spec e1 e2); try discriminate; subst.
    rewrite Z.compare_refl.
    change (Pos.compare_cont Eq m1 m2) with (Pos.compare m1 m2).
    change (Pos.compare_cont Eq m2 m1) with (Pos.compare m2 m1).
    destruct (Pos.compare_spec m1 m2); try discriminate; subst.
    now rewrite Pos.compare_refl.
Qed.

Lemma eqb_and_gtb (a b : float64) : SFeqb a b && gtb a b = false.
Proof.
  destruct (SFeqb a b) eqn:E; [cbn [andb]; now apply eqb_not_gtb | reflexivity].
Qed.

Lemma sub_self_value (x : float64) :
  sub x x = if is_finite x then zero else S754_nan.
Proof.
  destruct x as [s | s | | s m e]; cbn [is_finite].
  - destruct s; reflexivity.
  - destruct s; reflexivity.
  - reflexivity.
  - now apply sub_self_finite.
Qed.

Lemma ltb_irrefl (x : float64) : ltb x x = false.
Proof.
  unfold ltb, SFltb. destruct x as [[] | [] | | [] m e]; cbn; try reflexivity;
    rewrite Z.compare_refl;
    change (Pos.compare_cont Eq m m) with (Pos.compare m m);
    rewrite Pos.compare_refl; reflexivity.
Qed.

Lemma gtb_irrefl (x : float64) : gtb x x = false.
Proof. apply ltb_irrefl. Qed.

Lemma ltb_trans (a b c : float64) :
  ltb a b = true -> ltb b c = true -> ltb a c = true.
Proof.
  unfold ltb, SFltb.
  destruct a as [[] | [] | | [] ma ea], b as [[] | [] | | [] mb eb],
           c as [[] | [] | | [] mc ec];
    cbn; try (intros; reflexivity || discriminate);
    change (Pos.compare_cont Eq ma mb) with (Pos.compare ma mb);
    change (Pos.compare_cont Eq mb mc) with (Pos.compare mb mc);
    change (Pos.compare_cont Eq ma mc) with (Pos.compare ma mc);
    destruct (Z.compare_spec ea eb); destruct (Z.compare_spec eb ec);
    destruct (Z.compare_spec ea ec);
    try (intros; reflexivity || discriminate || lia);
    destruct (Pos.compare_spec ma mb); destruct (Pos.compare_spec mb mc);
    destruct (Pos.compare_spec ma mc); cbn;
    try (intros; reflexivity || discriminate || lia).
Qed.

Lemma ltb_true_not_nan (a b : float64) :
  ltb a b = true -> is_nan a = false /\ is_nan b = false.
Proof.
  destruct a, b; cbn; intros H; try discriminate H; split; reflexivity.
Qed.

(** Python's [max] over the samples seen so far: the running maximum is one
    of them, none of them compares greater, and it is NaN exactly when the
    first one was. *)
Lemma fold_max_inv (rest : list float64) :
  forall (seen : list float64) (m0 : float64),
    In m0 seen ->
    forallb (fun y => negb (gtb y m0)) seen = true ->
    In (fold_left (fun m item => if gtb item m then item else m) rest m0)
       (seen ++ rest) /\
    forallb (fun y =>
               negb (gtb y (fold_left (fun m item => if gtb item m then item else m)
                              rest m0))) (seen ++ rest) = true /\
    is_nan (fold_left (fun m item => if gtb item m then item else m) rest m0)
    = is_nan m0.
Proof.
  induction rest as [| item rest IH]; intros seen m0 Hin Hall.
  - cbn [fold_left]. rewrite app_nil_r. repeat split; assumption.
  - cbn [fold_left]. destruct (gtb item m0) eqn:G.
    + destruct (ltb_true_not_nan m0 item G) as [Hn0 Hni].
      replace (seen ++ item :: rest) with ((seen ++ [item]) ++ rest)
        by (rewrite <- app_assoc; reflexivity).
      rewrite Hn0, <- Hni. apply IH.
      * apply in_or_app. right. left. reflexivity.
      * rewrite forallb_app. apply andb_true_intro. split.
        -- apply forallb_forall. intros y Hy.
           rewrite forallb_forall in Hall. specialize (Hall y Hy).
           destruct (gtb y item) eqn:Gy; [| reflexivity].
           unfold gtb in *. fold ltb in *.
           rewrite (ltb_trans m0 item y G Gy) in Hall. discriminate Hall.
        -- cbn [forallb]. now rewrite gtb_irrefl.
    + replace (seen ++ item :: rest) with ((seen ++ [item]) ++ rest)
        by (rewrite <- app_assoc; reflexivity).
      apply IH.
      * apply in_or_app. left. exact Hin.
      * rewrite forallb_app, Hall. cbn [forallb]. now rewrite G.
Qed.

(** The same for Python's [min]. *)
Lemma fold_min_inv (rest : list float64) :
  forall (seen : list float64) (m0 : float64),
    In m0 seen ->
    forallb (fun y => negb (ltb y m0)) seen = true ->
    In (fold_left (fun m item => if ltb item m then item else m) rest m0)
       (seen ++ rest) /\
    forallb (fun y =>
               negb (ltb y (fold_left (fun m item => if ltb item m then item else m)
                              rest m0))) (seen ++ rest) = true /\
    is_nan (fold_left (fun m item => if ltb item m then item else m) rest m0)
    = is_nan m0.
Proof.
  induction rest as [| item rest IH]; intros seen m0 Hin Hall.
  - cbn [fold_left]. rewrite app_nil_r. repeat split; assumption.
  - cbn [fold_left]. destruct (ltb item m0) eqn:G.
    + destruct (ltb_true_not_nan item m0 G) as [Hni Hn0].
      replace (seen ++ item :: rest) with ((seen ++ [item]) ++ rest)
        by (rewrite <- app_assoc; reflexivity).
      rewrite Hn0, <- Hni. apply IH.
      * apply in_or_app. right. left. reflexivity.
      * rewrite forallb_app. apply andb_true_intro. split.
        -- apply forallb_forall. intros y Hy.
           rewrite forallb_forall in Hall. specialize (Hall y Hy).
           destruct (ltb y item) eqn:Gy; [| reflexivity].
           rewrite (ltb_trans y item m0 Gy G) in Hall. discriminate Hall.
        -- cbn [forallb]. now rewrite ltb_irrefl.
    + replace (seen ++ item :: rest) with ((seen ++ [item]) ++ rest)
        by (rewrite <- app_assoc; reflexivity).
      apply IH.
      * apply in_or_app. left. exact Hin.
      * rewrite forallb_app, Hall. cbn [forallb]. now rewrite G.
Qed.

Lemma py_max_spec (x : float64) (rest : list float64) :
  exists mx,
    py_max (x :: rest) = inr mx /\ In mx (x :: rest) /\
    forallb (fun y => negb (gtb y mx)) (x :: rest) = true /\
    is_nan mx = is_nan x.
Proof.
  eexists. split; [reflexivity |].
  apply (fold_max_inv rest [x] x).
  - left. reflexivity.
  - cbn [forallb]. now rewrite gtb_irrefl.
Qed.

Lemma py_min_spec (x : float64) (rest : list float64) :
  exists mn,
    py_min (x :: rest) = inr mn /\ In mn (x :: rest) /\
    forallb (fun y => negb (ltb y mn)) (x :: rest) = true /\
    is_nan mn = is_nan x.
Proof.
  eexists. split; [reflexivity |].
  apply (fold_min_inv rest [x] x).
  - left. reflexivity.
  - cbn [forallb]. now rewrite ltb_irrefl.
Qed.

(** *** The channel selection and the blink trigger *)

Lemma select_channel_nonempty (eeg_data : list (list float64)) (ch_data : list float64) :
  select_channel eeg_data = inr ch_data ->
  ch_data = map (fun r => nth 0 r zero) eeg_data /\ ch_data <> [].
Proof.
  unfold select_channel. destruct eeg_data as [| r0 rest]; [discriminate |].
  destruct (forallb _ (r0 :: rest)); [| discriminate].
  destruct (forallb _ INDEX_CHANNEL); [| discriminate].
  intros H. injection H as <-. split; [reflexivity | discriminate].
Qed.

(** Every non-empty pull whose samples all carry the same, non-zero number
    of channels passes the selection. *)
Lemma select_channel_ok (r0 : list float64) (rest : list (list float64)) :
  r0 <> [] ->
  Forall (fun r => length r = length r0) rest ->
  select_channel (r0 :: rest) = inr (map (fun r => nth 0 r zero) (r0 :: rest)).
Proof.
  intros Hne Hrect. unfold select_channel.
  assert (H : forallb (fun r => Nat.eqb (length r) (length r0)) (r0 :: rest) = true).
  { apply forallb_forall. intros r [<- | Hin]; apply Nat.eqb_eq; [reflexivity |].
    rewrite Forall_forall in Hrect. now apply Hrect. }
  rewrite H. destruct r0 as [| x r0]; [congruence | reflexivity].
Qed.

Lemma py_max_nonempty (xs : list float64) :
  xs <> [] -> exists mx, py_max xs = inr mx.
Proof. destruct xs; [congruence | intros _; eexists; reflexivity]. Qed.

Lemma py_min_nonempty (xs : list float64) :
  xs <> [] -> exists mn, py_min xs = inr mn.
Proof. destruct xs; [congruence | intros _; eexists; reflexivity]. Qed.

Lemma detect_blink_trace (ch_data : list float64) (mx mn : float64) :
  py_max ch_data = inr mx -> py_min ch_data = inr mn ->
  detect_blink ch_data =
  (EvPrintDiff (sub mx mn)
     :: (if gtb (sub mx mn) (of_Z BLINK_THRESHOLD)
         then [EvPress; EvPrintBlink] else []),
   inr tt).
Proof.
  intros Hmx Hmn. unfold detect_blink. rewrite Hmx, Hmn, !bind_lift_inr.
  rewrite bind_emit. destruct (gtb (sub mx mn) (of_Z BLINK_THRESHOLD)); reflexivity.
Qed.

Section ScriptFacts.

Context {FState : Type}.
Variable notch : Filter float64 FState.
Variable compute_band_powers : list float64 -> Z -> BandPowerVector.

Lemma process_chunk_unfold (fs : Z) (st : LoopState)
      (eeg_data : list (list float64)) (ch_data : list float64) :
  select_channel eeg_data = inr ch_data ->
  process_chunk notch compute_band_powers fs st eeg_data =
  match snd (detect_blink ch_data) with
  | inl e => (fst (detect_blink ch_data), inl e)
  | inr _ =>
      match next_state notch compute_band_powers fs st ch_data with
      | inl e => (fst (detect_blink ch_data), inl e)
      | inr st' =>
          (fst (detect_blink ch_data)
             ++ [EvPrintBands (np_mean_axis0 (band_buffer st'))],
           inr st')
      end
  end.
Proof.
  intros Hsel. unfold process_chunk, next_state.
  rewrite Hsel, bind_lift_inr.
  destruct (detect_blink ch_data) as [t [e | []]]; cbn [bind fst snd].
  - reflexivity.
  - destruct (update_buffer notch (eeg_buffer st) ch_data true (filter_state st))
      as [buf fst'].
    cbn [fst snd].
    destruct (get_last_data buf (EPOCH_LENGTH * fs)) as [e | data_epoch].
    + rewrite bind_lift_inl, app_nil_r. reflexivity.
    + rewrite bind_lift_inr.
      destruct (update_buffer (row_filter notch) (band_buffer st) _ false None)
        as [bands discarded].
      cbn [fst band_buffer]. rewrite bind_emit. reflexivity.
Qed.

Lemma process_chunk_inv (fs : Z) (st : LoopState)
      (eeg_data : list (list float64)) (t : list Event) (st' : LoopState) :
  process_chunk notch compute_band_powers fs st eeg_data = (t, inr st') ->
  exists ch_data,
    select_channel eeg_data = inr ch_data /\
    next_state notch compute_band_powers fs st ch_data = inr st' /\
    t = fst (detect_blink ch_data)
          ++ [EvPrintBands (np_mean_axis0 (band_buffer st'))].
Proof.
  intros H. destruct (select_channel eeg_data) as [e | ch_data] eqn:Hsel.
  - unfold process_chunk in H. rewrite Hsel in H. discriminate H.
  - rewrite (process_chunk_unfold fs st eeg_data ch_data Hsel) in H.
    exists ch_data. split; [reflexivity |].
    destruct (snd (detect_blink ch_data)); [discriminate H |].
    destruct (next_state notch compute_band_powers fs st ch_data) as [e | st1];
      [discriminate H |].
    injection H as <- <-. split; reflexivity.
Qed.

Lemma process_chunk_fired (fs : Z) (st : LoopState)
      (eeg_data : list (list float64)) (ch_data : list float64) (mx mn : float64) :
  select_channel eeg_data = inr ch_data ->
  py_max ch_data = inr mx -> py_min ch_data = inr mn ->
  fired (fst (process_chunk notch compute_band_powers fs st eeg_data)) =
  gtb (sub mx mn) (of_Z BLINK_THRESHOLD).
Proof.
  intros Hsel Hmx Hmn.
  rewrite (process_chunk_unfold fs st eeg_data ch_data Hsel).
  rewrite (detect_blink_trace ch_data mx mn Hmx Hmn). cbn [fst snd].
  destruct (next_state notch compute_band_powers fs st ch_data) as [e | st1];
    cbn [fst]; [| rewrite fired_app, orb_false_r];
    destruct (gtb (sub mx mn) (of_Z BLINK_THRESHOLD)); reflexivity.
Qed.

Lemma next_state_lengths (fs : Z) (st st' : LoopState) (ch_data : list float64) :
  next_state notch compute_band_powers fs st ch_data = inr st' ->
  length (eeg_buffer st') = length (eeg_buffer st) /\
  length (band_buffer st') = length (band_buffer st).
Proof.
  unfold next_state.
  destruct (get_last_data _ _) as [e | data_epoch]; [discriminate |].
  intros H. injection H as <-.
  split.
  - exact (update_buffer_length notch (eeg_buffer st) ch_data true (filter_state st)).
  - exact (update_buffer_length (row_filter notch) (band_buffer st)
             [compute_band_powers data_epoch fs] false None).
Qed.

Lemma init_lengths (fs : Z) (st : @LoopState FState) :
  init fs = inr st ->
  0 <= fs /\
  length (eeg_buffer st) = Z.to_nat (fs * BUFFER_LENGTH) /\
  length (band_buffer st) = 21%nat.
Proof.
  unfold init, np_zeros.
  destruct (fs * BUFFER_LENGTH <? 0) eqn:Hneg; [discriminate |].
  replace n_win_test with (Some 21) by (vm_compute; reflexivity).
  cbn [of_option]. replace (21 <? 0) with false by reflexivity.
  intros H. injection H as <-. cbn [eeg_buffer band_buffer].
  apply Z.ltb_ge in Hneg. unfold BUFFER_LENGTH in *.
  rewrite !repeat_length. split; [lia | split; reflexivity].
Qed.

Lemma reachable_lengths (fs : Z) (st : LoopState) :
  reachable notch compute_band_powers fs st ->
  0 <= fs /\
  length (eeg_buffer st) = Z.to_nat (fs * BUFFER_LENGTH) /\
  length (band_buffer st) = 21%nat.
Proof.
  induction 1 as [st Hinit | st eeg_data t st' Hreach IH Hstep].
  - now apply init_lengths.
  - destruct (process_chunk_inv _ _ _ _ _ Hstep) as (ch_data & _ & Hnext & _).
    destruct (next_state_lengths _ _ _ _ Hnext) as [He Hb].
    destruct IH as (Hfs & IHe & IHb). repeat split; congruence.
Qed.

End ScriptFacts.

(** *** Exact means *)

Lemma fold_Qplus_repeat (q : Q) (n : nat) :
  forall a : Q,
    (fold_left Qplus (repeat q n) a == a + inject_Z (Z.of_nat n) * q)%Q.
Proof.
  induction n as [| n IH]; intros a.
  - cbn [repeat fold_left Z.of_nat]. ring.
  - cbn [repeat fold_left]. rewrite IH, Nat2Z.inj_succ.
    unfold Z.succ. rewrite inject_Z_plus. ring.
Qed.

Lemma mean_exact_repeat (q : Q) (n : nat) :
  (mean_exact (repeat q (S n)) == q)%Q.
Proof.
  unfold mean_exact. rewrite fold_Qplus_repeat, repeat_length.
  field. rewrite Nat2Z.inj_succ. unfold Z.succ.
  intros H. 
  assert (Hz : (inject_Z (Z.of_nat n + 1) == inject_Z 0)%Q) by exact H.
  rewrite inject_Z_injective in Hz. lia.
Qed.

Lemma np_mean_axis0_band (a : list BandPowerVector) (b : Band) :
  band b (np_mean_axis0 a) =
  div (fold_left add (map (band b) a) zero) (of_Z (Z.of_nat (length a))).
Proof.
  destruct b; unfold np_mean_axis0, mean_column;
    cbn [band delta theta alpha beta]; rewrite length_map; reflexivity.
Qed.

(** *** An empty pull *)

(** C1: an iteration whose pull returns no sample does not proceed: the
    channel selection on the empty array raises [IndexError] before the blink
    test, the buffers and the filter are never reached, and the loop ends with
    that exception; [max] of an empty sequence would raise as well. *)
Theorem empty_pull_raises {FState : Type} (notch : Filter float64 FState)
        (compute_band_powers : list float64 -> Z -> BandPowerVector)
        (fs : Z) (st : LoopState) (rest : list (list (list float64))) :
  process_chunk notch compute_band_powers fs st [] = ([], inl IndexError) /\
  py_max [] = inl ValueError /\
  py_min [] = inl ValueError /\
  exists t e,
    loop notch compute_band_powers fs st ([] :: rest) = (t, inl e) /\
    fired t = false.
Proof.
  split; [reflexivity |]. split; [reflexivity |]. split; [reflexivity |].
  cbn [loop]. unfold iteration.
  destruct (trunc_int (mul SHIFT_LENGTH (of_Z fs))) as [m |].
  - exists [EvPull m], IndexError. split; reflexivity.
  - exists [], OverflowError. split; reflexivity.
Qed.

(** A 256 Hz run whose first pull is empty: the pull asked for at most 51
    samples, the exception ends the script, the later pull is never
    processed and 'Closing!' is not printed. *)
Example empty_pull_ends_run :
  main example_notch example_band_powers
       (mkEnv [0%nat] (of_Z 256) [[]; blink_chunk])
  = ([EvPrintLooking; EvResolve; EvPrintStart; EvOpenInlet; EvPrintHint; EvPull 51],
     inl IndexError).
Proof. vm_compute. reflexivity. Qed.

(** *** The blink trigger *)

(** C3: on a non-empty chunk the space bar is pressed exactly when
    [max(ch_data) - min(ch_data)] is greater than [BLINK_THRESHOLD] (the two
    booleans are equal); a difference equal to the threshold does not press
    it (equal and pressed never hold together).  Here [max(ch_data)] is a
    sample of the chunk that no sample of the chunk compares greater than,
    [min(ch_data)] a sample that none compares smaller than, and each is NaN
    exactly when the first sample of the chunk is. *)
Theorem blink_trigger_iff {FState : Type} (notch : Filter float64 FState)
        (compute_band_powers : list float64 -> Z -> BandPowerVector)
        (fs : Z) (st : LoopState)
        (eeg_data : list (list float64)) (ch_data : list float64)
        (Hsel : select_channel eeg_data = inr ch_data) :
  exists mx mn,
    py_max ch_data = inr mx /\ py_min ch_data = inr mn /\
    (In mx ch_data /\
     forallb (fun x => negb (gtb x mx)) ch_data = true /\
     is_nan mx = is_nan (hd zero ch_data)) /\
    (In mn ch_data /\
     forallb (fun x => negb (ltb x mn)) ch_data = true /\
     is_nan mn = is_nan (hd zero ch_data)) /\
    fired (fst (process_chunk notch compute_band_powers fs st eeg_data))
    = gtb (sub mx mn) (of_Z BLINK_THRESHOLD) /\
    SFeqb (sub mx mn) (of_Z BLINK_THRESHOLD)
    && fired (fst (process_chunk notch compute_band_powers fs st eeg_data))
    = false.
Proof.
  destruct (select_channel_nonempty _ _ Hsel) as [_ Hne].
  destruct ch_data as [| x rest]; [congruence |].
  destruct (py_max_spec x rest) as (mx & Hmx & Hmx_in & Hmx_top & Hmx_nan).
  destruct (py_min_spec x rest) as (mn & Hmn & Hmn_in & Hmn_bot & Hmn_nan).
  exists mx, mn. split; [exact Hmx |]. split; [exact Hmn |].
  split; [repeat split; assumption |].
  split; [repeat split; assumption |].
  rewrite (process_chunk_fired notch compute_band_powers fs st
             eeg_data (x :: rest) mx mn Hsel Hmx Hmn).
  split; [reflexivity |]. apply eqb_and_gtb.
Qed.

Lemma blink_trigger_iff_witness :
  select_channel [muse_sample 0; muse_sample 200] = inr [of_Z 0; of_Z 200] /\
  exists mx mn,
    py_max [of_Z 0; of_Z 200] = inr mx /\ py_min [of_Z 0; of_Z 200] = inr mn /\
    (In mx [of_Z 0; of_Z 200] /\
     forallb (fun x => negb (gtb x mx)) [of_Z 0; of_Z 200] = true /\
     is_nan mx = is_nan (hd zero [of_Z 0; of_Z 200])) /\
    (In mn [of_Z 0; of_Z 200] /\
     forallb (fun x => negb (ltb x mn)) [of_Z 0; of_Z 200] = true /\
     is_nan mn = is_nan (hd zero [of_Z 0; of_Z 200])) /\
    fired (fst (process_chunk example_notch example_band_powers 256
                  example_state0 [muse_sample 0; muse_sample 200]))
    = gtb (sub mx mn) (of_Z BLINK_THRESHOLD) /\
    SFeqb (sub mx mn) (of_Z BLINK_THRESHOLD)
    && fired (fst (process_chunk example_notch example_band_powers 256
                     example_state0 [muse_sample 0; muse_sample 200]))
    = false.
Proof.
  split; [reflexivity |].
  apply (blink_trigger_iff example_notch example_band_powers 256 example_state0
           [muse_sample 0; muse_sample 200] [of_Z 0; of_Z 200]).
  reflexivity.
Defined.

(** A dip between two equal peaks: the minimum is the middle sample, not the
    first, and the key is pressed. *)
Example blink_between_equal_peaks :
  py_max [of_Z 300; of_Z 0; of_Z 300] = inr (of_Z 300) /\
  py_min [of_Z 300; of_Z 0; of_Z 300] = inr (of_Z 0) /\
  fired (fst (process_chunk example_notch example_band_powers 256 example_state0
                [muse_sample 300; muse_sample 0; muse_sample 300])) = true.
Proof. repeat split; vm_compute; reflexivity. Qed.

(** The three chunks of the design document: amplitude 201 over 0 presses the
    key, amplitude 200 over 0 does not, one sample at 300 among zeros does. *)
Example blink_examples :
  fired (fst (process_chunk example_notch example_band_powers 256 example_state0
                [muse_sample 0; muse_sample 201])) = true /\
  fired (fst (process_chunk example_notch example_band_powers 256 example_state0
                [muse_sample 0; muse_sample 200])) = false /\
  fired (fst (process_chunk example_notch example_band_powers 256 example_state0
                blink_chunk)) = true.
Proof. repeat split; vm_compute; reflexivity. Qed.

(** C9: a chunk of one sample never presses the key: its maximum and its
    minimum are the same value, their difference is 0 (NaN when the sample is
    an infinity or a NaN), which is not above the threshold 200, a positive
    number. *)
Theorem single_sample_never_fires {FState : Type} (notch : Filter float64 FState)
        (compute_band_powers : list float64 -> Z -> BandPowerVector)
        (fs : Z) (st : LoopState) (sample : list float64) :
  fired (fst (process_chunk notch compute_band_powers fs st [sample])) = false /\
  (forall x : float64,
      py_max [x] = inr x /\ py_min [x] = inr x /\
      gtb (sub x x) (of_Z BLINK_THRESHOLD) = false /\
      sub x x = if is_finite x then zero else S754_nan) /\
  ltb zero (of_Z BLINK_THRESHOLD) = true.
Proof.
  split; [| split; [| reflexivity]].
  - destruct sample as [| x others].
    + reflexivity.
    + assert (Hsel : select_channel [x :: others] = inr [x]).
      { unfold select_channel. cbn [forallb]. rewrite Nat.eqb_refl. reflexivity. }
      rewrite (process_chunk_fired notch compute_band_powers fs st
                 [x :: others] [x] x x Hsel eq_refl eq_refl).
      apply sub_self_below_threshold.
  - intros x. split; [reflexivity |]. split; [reflexivity |].
    split; [apply sub_self_below_threshold | apply sub_self_value].
Qed.

(** *** Start-up *)

(** C8: when the discovery returns no stream the script raises [RuntimeError]
    right after the discovery: it resolved once, opened no inlet, built no
    buffer and pulled nothing. *)
Theorem no_stream_is_fatal {FState : Type} (notch : Filter float64 FState)
        (compute_band_powers : list float64 -> Z -> BandPowerVector)
        (srate : float64) (data : list (list (list float64))) :
  main notch compute_band_powers (mkEnv [] srate data) =
  ([EvPrintLooking; EvResolve], inl RuntimeError) /\
  existsb is_pull (fst (main notch compute_band_powers (mkEnv [] srate data))) = false.
Proof. split; reflexivity. Qed.

(** *** Buffer lengths *)

Lemma example_state1_reachable :
  reachable example_notch example_band_powers 256 example_state1.
Proof.
  apply (reach_step example_notch example_band_powers 256 example_state0 blink_chunk
           (fst (process_chunk example_notch example_band_powers 256
                   example_state0 blink_chunk))).
  - apply reach_init. vm_compute. reflexivity.
  - vm_compute. reflexivity.
Defined.

(** C4: the buffer update returns a buffer of the length it was given, for
    any element type, any chunk (empty or longer than the buffer), with or
    without the filter; hence in every state the loop reaches the sample
    buffer has [fs * BUFFER_LENGTH] elements and the band buffer 21 rows. *)
Theorem buffers_keep_length :
  (forall (A S : Type) (F : Filter A S) (buffer chunk : list A)
          (notch : bool) (filter_state : option S),
      length (fst (update_buffer F buffer chunk notch filter_state)) = length buffer) /\
  (forall (FState : Type) (notch : Filter float64 FState)
          (compute_band_powers : list float64 -> Z -> BandPowerVector)
          (fs : Z) (st : LoopState),
      reachable notch compute_band_powers fs st ->
      length (eeg_buffer st) = Z.to_nat (fs * BUFFER_LENGTH) /\
      length (band_buffer st) = 21%nat).
Proof.
  split.
  - intros A S F buffer chunk notch filter_state. apply update_buffer_length.
  - intros FState notch compute_band_powers fs st H.
    apply (reachable_lengths notch compute_band_powers fs st H).
Qed.

Lemma buffers_keep_length_witness :
  reachable example_notch example_band_powers 256 example_state1 /\
  length (eeg_buffer example_state1) = Z.to_nat (256 * BUFFER_LENGTH) /\
  length (band_buffer example_state1) = 21%nat.
Proof.
  split; [exact example_state1_reachable |].
  apply (proj2 buffers_keep_length float64 example_notch example_band_powers
           256 example_state1).
  exact example_state1_reachable.
Defined.

(** *** Filter state across chunk boundaries *)

(** C5: filtering [c1] and then [c2] with the state returned by the first
    call gives the same output samples, and the same final state, as
    filtering [c1 ++ c2] in one call; the sample buffer after the two updates
    is the buffer after the single update. *)
Theorem filter_state_threading {A S : Type} (F : Filter A S)
        (filter_state : option S) (c1 c2 : list A) (buffer : list A) :
  let first := apply_filter F filter_state c1 in
  let second := apply_filter F (snd first) c2 in
  let u1 := update_buffer F buffer c1 true filter_state in
  let u2 := update_buffer F (fst u1) c2 true (snd u1) in
  apply_filter F filter_state (c1 ++ c2) = (fst first ++ fst second, snd second) /\
  update_buffer F buffer (c1 ++ c2) true filter_state = u2.
Proof.
  cbv zeta. split; [apply apply_filter_app |].
  unfold update_buffer.
  rewrite apply_filter_app.
  destruct (apply_filter F filter_state c1) as [o1 s1]. cbn [fst snd].
  destruct (apply_filter F s1 c2) as [o2 s2]. cbn [fst snd].
  f_equal.
  rewrite (keep_last_length (length buffer) (buffer ++ o1))
    by (rewrite length_app; lia).
  rewrite keep_last_app by (rewrite length_app; lia).
  now rewrite app_assoc.
Qed.

(** *** The smoothed band powers *)

(** C6, as the script has it: the band powers reported by an iteration are
    the column-wise binary64 mean of every row of the band buffer (the rows
    are added in order and the sum is divided by the number of rows), rows
    still at zero included; for 21 zero rows the mean is exactly the zero
    row, and in exact rational arithmetic the mean of equal values is that
    value. *)
Theorem smoothed_is_mean_of_all_rows {FState : Type} (notch : Filter float64 FState)
        (compute_band_powers : list float64 -> Z -> BandPowerVector)
        (fs : Z) (st st' : LoopState) (eeg_data : list (list float64))
        (t : list Event)
        (H : process_chunk notch compute_band_powers fs st eeg_data = (t, inr st')) :
  last t EvPrintClosing = EvPrintBands (np_mean_axis0 (band_buffer st')) /\
  (forall b : Band,
      band b (np_mean_axis0 (band_buffer st')) =
      div (fold_left add (map (band b) (band_buffer st')) zero)
          (of_Z (Z.of_nat (length (band_buffer st'))))) /\
  np_mean_axis0 (repeat zero_row 21) = zero_row /\
  (forall (q : Q) (n : nat), (mean_exact (repeat q (S n)) == q)%Q).
Proof.
  destruct (process_chunk_inv notch compute_band_powers _ _ _ _ _ H)
    as (ch_data & _ & _ & Ht).
  split; [rewrite Ht; apply last_last |].
  split; [intros b; apply np_mean_axis0_band |].
  split; [vm_compute; reflexivity | apply mean_exact_repeat].
Qed.

Lemma smoothed_is_mean_of_all_rows_witness :
  process_chunk example_notch example_band_powers 256 example_state0 blink_chunk
  = (fst (process_chunk example_notch example_band_powers 256
            example_state0 blink_chunk), inr example_state1) /\
  last (fst (process_chunk example_notch example_band_powers 256
               example_state0 blink_chunk)) EvPrintClosing
  = EvPrintBands (np_mean_axis0 (band_buffer example_state1)).
Proof.
  assert (H : process_chunk example_notch example_band_powers 256
                example_state0 blink_chunk
              = (fst (process_chunk example_notch example_band_powers 256
                        example_state0 blink_chunk), inr example_state1))
    by (vm_compute; reflexivity).
  split; [exact H |].
  exact (proj1 (smoothed_is_mean_of_all_rows example_notch example_band_powers
                  256 example_state0 example_state1 blink_chunk _ H)).
Defined.

(** C6, as it is written, fails in binary64: after 21 iterations whose band
    powers are all 0.1 the buffer holds 21 equal rows, and the reported mean
    is 0.10000000000000002, not 0.1. *)
Lemma mean_of_equal_rows_inexact :
  let out := main example_notch constant_band_powers warmup_env in
  (exists st,
      snd out = inr st /\
      band_buffer st = repeat tenth_row 21 /\
      last (removelast (fst out)) EvPrintClosing
      = EvPrintBands (np_mean_axis0 (band_buffer st))) /\
  np_mean_axis0 (repeat tenth_row 21) <> tenth_row /\
  gtb (delta (np_mean_axis0 (repeat tenth_row 21))) (delta tenth_row) = true.
Proof.
  cbv zeta. split; [| split].
  - eexists. split; [vm_compute; reflexivity |].
    split; [vm_compute; reflexivity |].
    vm_compute. reflexivity.
  - intros E. apply (f_equal delta) in E. vm_compute in E. discriminate E.
  - vm_compute. reflexivity.
Qed.

(** *** The epoch handed to the estimator *)

Lemma select_channel_error (eeg_data : list (list float64)) (e : Exn) :
  select_channel eeg_data = inl e -> e = IndexError \/ e = ValueError.
Proof.
  unfold select_channel. destruct eeg_data as [| r0 rest].
  - intros H. injection H as <-. left. reflexivity.
  - destruct (forallb _ (r0 :: rest)).
    + destruct (forallb _ INDEX_CHANNEL); [discriminate |].
      intros H. injection H as <-. left. reflexivity.
    + intros H. injection H as <-. right. reflexivity.
Qed.

(** In a reachable state the epoch extraction on the updated sample buffer
    succeeds and yields a full epoch. *)
Lemma next_state_reachable {FState : Type} (notch : Filter float64 FState)
      (compute_band_powers : list float64 -> Z -> BandPowerVector)
      (fs : Z) (st : LoopState)
      (H : reachable notch compute_band_powers fs st)
      (ch_data : list float64) :
  EPOCH_LENGTH * fs
  <= Z.of_nat (length (fst (update_buffer notch (eeg_buffer st) ch_data true
                              (filter_state st)))) /\
  Z.of_nat (length (fst (update_buffer notch (eeg_buffer st) ch_data true
                           (filter_state st)))) = fs * BUFFER_LENGTH /\
  exists epoch st',
    get_last_data (fst (update_buffer notch (eeg_buffer st) ch_data true
                          (filter_state st))) (EPOCH_LENGTH * fs) = inr epoch /\
    epoch = keep_last (Z.to_nat (EPOCH_LENGTH * fs))
              (fst (update_buffer notch (eeg_buffer st) ch_data true
                      (filter_state st))) /\
    Z.of_nat (length epoch) = EPOCH_LENGTH * fs /\
    next_state notch compute_band_powers fs st ch_data = inr st' /\
    eeg_buffer st' = fst (update_buffer notch (eeg_buffer st) ch_data true
                            (filter_state st)) /\
    band_buffer st' =
    fst (update_buffer (row_filter notch) (band_buffer st)
           [compute_band_powers epoch fs] false None).
Proof.
  destruct (reachable_lengths notch compute_band_powers fs st H) as (Hfs & Hlen & _).
  pose proof (update_buffer_length notch (eeg_buffer st) ch_data true
                (filter_state st)) as Hbuf.
  unfold next_state, get_last_data.
  destruct (update_buffer notch (eeg_buffer st) ch_data true (filter_state st))
    as [buf fst'].
  cbn [fst snd] in *. rewrite Hbuf, Hlen. unfold EPOCH_LENGTH, BUFFER_LENGTH in *.
  rewrite Z2Nat.id by lia.
  split; [lia |]. split; [reflexivity |].
  assert (Hle : (fs * 5 <? 1 * fs) = false) by (apply Z.ltb_ge; lia).
  rewrite Hle.
  eexists. eexists. split; [reflexivity |]. split; [reflexivity |].
  split; [| repeat split; reflexivity].
  rewrite keep_last_length by lia. rewrite Z2Nat.id; lia.
Qed.

(** C7: in every state the loop reaches, an iteration on a pull that passes
    the channel selection completes; the epoch request [EPOCH_LENGTH * fs]
    does not exceed the length [fs * BUFFER_LENGTH] of the updated sample
    buffer; the epoch handed to the estimator is the last
    [EPOCH_LENGTH * fs] samples of that buffer, exactly that many; the row
    pushed into the band buffer is the estimator's value on that epoch; and
    no pull at all makes the iteration end in the extractor's failure. *)
Theorem epoch_is_full {FState : Type} (notch : Filter float64 FState)
        (compute_band_powers : list float64 -> Z -> BandPowerVector)
        (fs : Z) (st : LoopState)
        (H : reachable notch compute_band_powers fs st)
        (eeg_data : list (list float64)) (ch_data : list float64)
        (Hsel : select_channel eeg_data = inr ch_data) :
  let buf := fst (update_buffer notch (eeg_buffer st) ch_data true (filter_state st)) in
  EPOCH_LENGTH * fs <= Z.of_nat (length buf) /\
  Z.of_nat (length buf) = fs * BUFFER_LENGTH /\
  (exists epoch st' t,
      process_chunk notch compute_band_powers fs st eeg_data = (t, inr st') /\
      eeg_buffer st' = buf /\
      get_last_data buf (EPOCH_LENGTH * fs) = inr epoch /\
      epoch = keep_last (Z.to_nat (EPOCH_LENGTH * fs)) buf /\
      Z.of_nat (length epoch) = EPOCH_LENGTH * fs /\
      band_buffer st' =
      fst (update_buffer (row_filter notch) (band_buffer st)
             [compute_band_powers epoch fs] false None)) /\
  (forall any_pull : list (list float64),
      snd (process_chunk notch compute_band_powers fs st any_pull)
      <> inl InsufficientEpochLength).
Proof.
  cbv zeta.
  destruct (next_state_reachable notch compute_band_powers fs st H ch_data)
    as (Hreq & Hlen & epoch & st' & Hget & Hepoch & Hfull & Hnext & Hbuf & Hband).
  split; [exact Hreq |]. split; [exact Hlen |]. split.
  - destruct (select_channel_nonempty _ _ Hsel) as [_ Hne].
    destruct (py_max_nonempty _ Hne) as [mx Hmx].
    destruct (py_min_nonempty _ Hne) as [mn Hmn].
    exists epoch, st'. eexists.
    split.
    + rewrite (process_chunk_unfold notch compute_band_powers fs st _ _ Hsel).
      rewrite (detect_blink_trace ch_data mx mn Hmx Hmn). cbn [fst snd].
      rewrite Hnext. reflexivity.
    + repeat split; assumption.
  - intros any_pull.
    destruct (select_channel any_pull) as [e | ch] eqn:Hany.
    + unfold process_chunk. rewrite Hany. cbn.
      destruct (select_channel_error _ _ Hany) as [-> | ->]; discriminate.
    + rewrite (process_chunk_unfold notch compute_band_powers fs st _ _ Hany).
      destruct (select_channel_nonempty _ _ Hany) as [_ Hne].
      destruct (py_max_nonempty _ Hne) as [mx Hmx].
      destruct (py_min_nonempty _ Hne) as [mn Hmn].
      rewrite (detect_blink_trace ch mx mn Hmx Hmn). cbn [fst snd].
      destruct (next_state_reachable notch compute_band_powers fs st H ch)
        as (_ & _ & _ & st2 & _ & _ & _ & Hnext2 & _).
      rewrite Hnext2. cbn [snd]. discriminate.
Qed.

Lemma epoch_is_full_witness :
  reachable example_notch example_band_powers 256 example_state1 /\
  select_channel blink_chunk = inr [of_Z 0; of_Z 300; of_Z 0] /\
  EPOCH_LENGTH * 256 <=
  Z.of_nat (length (fst (update_buffer example_notch (eeg_buffer example_state1)
                           [of_Z 0; of_Z 300; of_Z 0] true
                           (filter_state example_state1)))) /\
  snd (process_chunk example_notch example_band_powers 256 example_state1 [])
  <> inl InsufficientEpochLength.
Proof.
  assert (Hsel : select_channel blink_chunk = inr [of_Z 0; of_Z 300; of_Z 0])
    by reflexivity.
  split; [exact example_state1_reachable |]. split; [exact Hsel |].
  pose proof (epoch_is_full example_notch example_band_powers 256 example_state1
                example_state1_reachable blink_chunk _ Hsel) as W.
  cbv zeta in W. destruct W as (W1 & _ & _ & W4).
  split; [exact W1 | exact (W4 [])].
Defined.

(** *** The filter state *)

(** C10: after an iteration the filter state is the one returned by the
    sample-buffer update and nothing else: it does not depend on the band
    buffer or on the band powers, and the state returned by the band-buffer
    update (always absent) is not what the loop keeps. *)
Theorem filter_state_from_sample_update {FState : Type}
        (notch : Filter float64 FState)
        (compute_band_powers : list float64 -> Z -> BandPowerVector)
        (fs : Z) (st st' : LoopState) (eeg_data : list (list float64))
        (t : list Event)
        (H : process_chunk notch compute_band_powers fs st eeg_data = (t, inr st')) :
  exists ch_data,
    select_channel eeg_data = inr ch_data /\
    filter_state st' =
    snd (update_buffer notch (eeg_buffer st) ch_data true (filter_state st)) /\
    (forall (rows : list BandPowerVector) (v : BandPowerVector),
        snd (update_buffer (row_filter notch) rows [v] false None) = None) /\
    exists s, filter_state st' = Some s.
Proof.
  destruct (process_chunk_inv notch compute_band_powers _ _ _ _ _ H)
    as (ch_data & Hsel & Hnext & _).
  exists ch_data. split; [exact Hsel |].
  destruct (select_channel_nonempty _ _ Hsel) as [_ Hne].
  unfold next_state in Hnext.
  destruct (get_last_data _ _) as [e | data_epoch]; [discriminate Hnext |].
  injection Hnext as <-. cbn [filter_state].
  split; [reflexivity |]. split; [reflexivity |].
  unfold update_buffer. destruct ch_data as [| x rest]; [congruence |].
  unfold apply_filter.
  destruct (run_filter notch _ (x :: rest)) as [ys s']. cbn [snd].
  exists s'. reflexivity.
Qed.

Lemma filter_state_from_sample_update_witness :
  process_chunk example_notch example_band_powers 256 example_state0 blink_chunk
  = (fst (process_chunk example_notch example_band_powers 256
            example_state0 blink_chunk), inr example_state1) /\
  exists ch_data,
    select_channel blink_chunk = inr ch_data /\
    filter_state example_state1 =
    snd (update_buffer example_notch (eeg_buffer example_state0) ch_data true
           (filter_state example_state0)) /\
    (forall (rows : list BandPowerVector) (v : BandPowerVector),
        snd (update_buffer (row_filter example_notch) rows [v] false None) = None) /\
    exists s, filter_state example_state1 = Some s.
Proof.
  assert (H : process_chunk example_notch example_band_powers 256
                example_state0 blink_chunk
              = (fst (process_chunk example_notch example_band_powers 256
                        example_state0 blink_chunk), inr example_state1))
    by (vm_compute; reflexivity).
  split; [exact H |].
  exact (filter_state_from_sample_update example_notch example_band_powers
           256 example_state0 example_state1 blink_chunk _ H).
Defined.

(** *** More on programs and traces *)

Lemma bind_ret_l {A B : Type} (a : A) (k : A -> Prog B) : bind (ret a) k = k a.
Proof. unfold bind, ret. destruct (k a) as [t r]. reflexivity. Qed.

Lemma bind_ext {A B : Type} (m : Prog A) (k1 k2 : A -> Prog B) :
  (forall a, k1 a = k2 a) -> bind m k1 = bind m k2.
Proof. intros H. destruct m as [t [e | a]]; cbn [bind]; [| rewrite H]; reflexivity. Qed.

Lemma bind_assoc {A B C : Type} (m : Prog A) (k : A -> Prog B) (h : B -> Prog C) :
  bind (bind m k) h = bind m (fun a => bind (k a) h).
Proof.
  destruct m as [t [e | a]]; cbn [bind]; [reflexivity |].
  destruct (k a) as [t1 [e | b]]; cbn [bind]; [reflexivity |].
  destruct (h b) as [t2 r]. now rewrite app_assoc.
Qed.

Lemma bind_inr_inv {A B : Type} (m : Prog A) (k : A -> Prog B)
      (t : list Event) (b : B) :
  bind m k = (t, inr b) ->
  exists t1 a t2, m = (t1, inr a) /\ k a = (t2, inr b) /\ t = t1 ++ t2.
Proof.
  destruct m as [t1 [e | a]]; cbn [bind]; [discriminate |].
  destruct (k a) as [t2 r] eqn:Hk. intros H. injection H as <- ->.
  exists t1, a, t2. repeat split; assumption.
Qed.

Lemma bind_inl_inv {A B : Type} (m : Prog A) (k : A -> Prog B)
      (t : list Event) (e : Exn) :
  bind m k = (t, inl e) ->
  m = (t, inl e) \/
  exists t1 a t2, m = (t1, inr a) /\ k a = (t2, inl e) /\ t = t1 ++ t2.
Proof.
  destruct m as [t1 [e1 | a]]; cbn [bind].
  - intros H. injection H as <- <-. left. reflexivity.
  - destruct (k a) as [t2 r] eqn:Hk. intros H. injection H as <- ->.
    right. exists t1, a, t2. repeat split; assumption.
Qed.

Lemma count_events_app (p : Event -> bool) (t1 t2 : list Event) :
  count_events p (t1 ++ t2) = (count_events p t1 + count_events p t2)%nat.
Proof. unfold count_events. now rewrite filter_app, length_app. Qed.

(** *** NaN and equal samples in comparisons *)

Lemma ltb_nan_l (x : float64) : ltb S754_nan x = false.
Proof. reflexivity. Qed.

Lemma ltb_nan_r (x : float64) : ltb x S754_nan = false.
Proof. destruct x; reflexivity. Qed.

Lemma gtb_nan_l (x : float64) : gtb S754_nan x = false.
Proof. apply ltb_nan_r. Qed.

Lemma gtb_nan_r (x : float64) : gtb x S754_nan = false.
Proof. reflexivity. Qed.

Lemma fold_max_nan (rest : list float64) :
  fold_left (fun m item => if gtb item m then item else m) rest S754_nan = S754_nan.
Proof.
  induction rest as [| x rest IH]; [reflexivity |].
  cbn [fold_left]. rewrite gtb_nan_r. exact IH.
Qed.

Lemma fold_min_nan (rest : list float64) :
  fold_left (fun m item => if ltb item m then item else m) rest S754_nan = S754_nan.
Proof.
  induction rest as [| x rest IH]; [reflexivity |].
  cbn [fold_left]. rewrite ltb_nan_r. exact IH.
Qed.

Lemma fold_max_skip_nan (l1 l2 : list float64) :
  forall x : float64,
    fold_left (fun m item => if gtb item m then item else m) (l1 ++ S754_nan :: l2) x
    = fold_left (fun m item => if gtb item m then item else m) (l1 ++ l2) x.
Proof.
  intros x. rewrite !fold_left_app. cbn [fold_left]. now rewrite gtb_nan_l.
Qed.

Lemma fold_min_skip_nan (l1 l2 : list float64) :
  forall x : float64,
    fold_left (fun m item => if ltb item m then item else m) (l1 ++ S754_nan :: l2) x
    = fold_left (fun m item => if ltb item m then item else m) (l1 ++ l2) x.
Proof.
  intros x. rewrite !fold_left_app. cbn [fold_left]. now rewrite ltb_nan_l.
Qed.

Lemma fold_max_flat (x : float64) (n : nat) :
  fold_left (fun m item => if gtb item m then item else m) (repeat x n) x = x.
Proof.
  induction n as [| n IH]; [reflexivity |].
  cbn [repeat fold_left]. rewrite gtb_irrefl. exact IH.
Qed.

Lemma fold_min_flat (x : float64) (n : nat) :
  fold_left (fun m item => if ltb item m then item else m) (repeat x n) x = x.
Proof.
  induction n as [| n IH]; [reflexivity |].
  cbn [repeat fold_left]. rewrite ltb_irrefl. exact IH.
Qed.

(** *** The shape of a run *)

Section RunFacts.

Context {FState : Type}.
Variable notch : Filter float64 FState.
Variable compute_band_powers : list float64 -> Z -> BandPowerVector.

Lemma process_chunk_fired_blinks (fs : Z) (st : LoopState)
      (eeg_data : list (list float64)) :
  fired (fst (process_chunk notch compute_band_powers fs st eeg_data))
  = chunk_blinks eeg_data.
Proof.
  unfold chunk_blinks.
  destruct (select_channel eeg_data) as [e | ch_data] eqn:Hsel.
  - unfold process_chunk. rewrite Hsel. reflexivity.
  - destruct (select_channel_nonempty _ _ Hsel) as [_ Hne].
    destruct (py_max_nonempty _ Hne) as [mx Hmx].
    destruct (py_min_nonempty _ Hne) as [mn Hmn].
    rewrite (process_chunk_fired notch compute_band_powers fs st
               eeg_data ch_data mx mn Hsel Hmx Hmn).
    now rewrite Hmx, Hmn.
Qed.

(** The trace of a successful pass over one pull. *)
Lemma process_chunk_trace (fs : Z) (st st' : LoopState)
      (eeg_data : list (list float64)) (t : list Event) :
  process_chunk notch compute_band_powers fs st eeg_data = (t, inr st') ->
  exists d,
    t = EvPrintDiff d
          :: (if chunk_blinks eeg_data then [EvPress; EvPrintBlink] else [])
          ++ [EvPrintBands (np_mean_axis0 (band_buffer st'))].
Proof.
  intros H.
  destruct (process_chunk_inv notch compute_band_powers _ _ _ _ _ H)
    as (ch_data & Hsel & _ & Ht).
  destruct (select_channel_nonempty _ _ Hsel) as [_ Hne].
  destruct (py_max_nonempty _ Hne) as [mx Hmx].
  destruct (py_min_nonempty _ Hne) as [mn Hmn].
  exists (sub mx mn). rewrite Ht, (detect_blink_trace ch_data mx mn Hmx Hmn).
  unfold chunk_blinks. rewrite Hsel, Hmx, Hmn. reflexivity.
Qed.

(** Whatever its outcome, a pass over one pull never prints 'Closing!'. *)
Lemma process_chunk_no_closing (fs : Z) (st : LoopState)
      (eeg_data : list (list float64)) :
  count_events is_closing
    (fst (process_chunk notch compute_band_powers fs st eeg_data)) = 0%nat.
Proof.
  destruct (select_channel eeg_data) as [e | ch_data] eqn:Hsel.
  - unfold process_chunk. rewrite Hsel. reflexivity.
  - rewrite (process_chunk_unfold notch compute_band_powers fs st _ _ Hsel).
    destruct (select_channel_nonempty _ _ Hsel) as [_ Hne].
    destruct (py_max_nonempty _ Hne) as [mx Hmx].
    destruct (py_min_nonempty _ Hne) as [mn Hmn].
    rewrite (detect_blink_trace ch_data mx mn Hmx Hmn). cbn [fst snd].
    destruct (next_state notch compute_band_powers fs st ch_data) as [e | st1];
      cbn [fst]; [| rewrite count_events_app];
      destruct (gtb (sub mx mn) (of_Z BLINK_THRESHOLD)); reflexivity.
Qed.

Lemma iteration_unfold (fs : Z) (st : LoopState) (eeg_data : list (list float64)) :
  iteration notch compute_band_powers fs st eeg_data =
  match max_samples fs with
  | None => ([], inl OverflowError)
  | Some m =>
      (EvPull m :: fst (process_chunk notch compute_band_powers fs st eeg_data),
       snd (process_chunk notch compute_band_powers fs st eeg_data))
  end.
Proof.
  unfold iteration, max_samples.
  destruct (trunc_int (mul SHIFT_LENGTH (of_Z fs))) as [m |]; cbn [of_option].
  - now rewrite bind_lift_inr, bind_emit.
  - reflexivity.
Qed.

Lemma iteration_inv (fs : Z) (st st' : LoopState)
      (eeg_data : list (list float64)) (t : list Event) :
  iteration notch compute_band_powers fs st eeg_data = (t, inr st') ->
  exists m t',
    max_samples fs = Some m /\ t = EvPull m :: t' /\
    process_chunk notch compute_band_powers fs st eeg_data = (t', inr st').
Proof.
  rewrite iteration_unfold. destruct (max_samples fs) as [m |]; [| discriminate].
  destruct (process_chunk notch compute_band_powers fs st eeg_data) as [t' r].
  cbn [fst snd]. intros H. injection H as <- ->.
  exists m, t'. repeat split; reflexivity.
Qed.

Lemma iteration_no_closing (fs : Z) (st : LoopState)
      (eeg_data : list (list float64)) :
  count_events is_closing
    (fst (iteration notch compute_band_powers fs st eeg_data)) = 0%nat.
Proof.
  rewrite iteration_unfold. destruct (max_samples fs) as [m |]; [| reflexivity].
  cbn [fst]. change (EvPull m :: ?l) with ([EvPull m] ++ l).
  rewrite count_events_app, process_chunk_no_closing. reflexivity.
Qed.

Lemma loop_cons (fs : Z) (st : LoopState) (eeg_data : list (list float64))
      (rest : list (list (list float64))) :
  loop notch compute_band_powers fs st (eeg_data :: rest) =
  bind (iteration notch compute_band_powers fs st eeg_data)
       (fun st' => loop notch compute_band_powers fs st' rest).
Proof. reflexivity. Qed.

Lemma loop_no_closing (fs : Z) (data : list (list (list float64))) :
  forall st : LoopState,
    count_events is_closing
      (fst (loop notch compute_band_powers fs st data)) = 0%nat.
Proof.
  induction data as [| d rest IH]; intros st; [reflexivity |].
  rewrite loop_cons.
  pose proof (iteration_no_closing fs st d) as Hit.
  destruct (iteration notch compute_band_powers fs st d) as [t1 [e | st1]];
    cbn [bind fst] in *; [exact Hit |].
  specialize (IH st1).
  destruct (loop notch compute_band_powers fs st1 rest) as [t2 r].
  cbn [fst] in *. rewrite count_events_app, Hit, IH. reflexivity.
Qed.

(** The run over two successive lists of pulls is the run over the first
    followed by the run over the second from the state reached. *)
Lemma loop_app (fs : Z) (d1 d2 : list (list (list float64))) :
  forall st : LoopState,
    loop notch compute_band_powers fs st (d1 ++ d2) =
    bind (loop notch compute_band_powers fs st d1)
         (fun st' => loop notch compute_band_powers fs st' d2).
Proof.
  induction d1 as [| d rest IH]; intros st.
  - cbn [app loop]. now rewrite bind_ret_l.
  - cbn [app]. rewrite !loop_cons, bind_assoc.
    apply bind_ext. intros st1. apply IH.
Qed.

(** What a loop that was ended by the interrupt has printed and pressed. *)
Lemma loop_counts (fs : Z) (data : list (list (list float64))) :
  forall (st st' : LoopState) (t : list Event),
    loop notch compute_band_powers fs st data = (t, inr st') ->
    count_events is_pull t = length data /\
    count_events is_diff t = length data /\
    count_events is_report t = length data /\
    count_events is_press t = length (filter chunk_blinks data).
Proof.
  induction data as [| d rest IH]; intros st st' t H.
  - cbn in H. injection H as <- _. repeat split; reflexivity.
  - rewrite loop_cons in H.
    destruct (bind_inr_inv _ _ _ _ H) as (t1 & st1 & t2 & Hit & Hrest & ->).
    destruct (iteration_inv _ _ _ _ _ Hit) as (m & t' & _ & -> & Hpc).
    destruct (process_chunk_trace _ _ _ _ _ Hpc) as (dv & ->).
    destruct (IH _ _ _ Hrest) as (Hp & Hd & Hr & Hk).
    rewrite !count_events_app, Hp, Hd, Hr, Hk. cbn [filter length].
    destruct (chunk_blinks d); repeat split; reflexivity.
Qed.

Lemma main_unfold (env : Env) :
  main notch compute_band_powers env =
  if Nat.eqb (length (streams env)) 0
  then ([EvPrintLooking; EvResolve], inl RuntimeError)
  else
    match sampling_rate (nominal_srate env) with
    | inl e => ([EvPrintLooking; EvResolve; EvPrintStart; EvOpenInlet], inl e)
    | inr fs =>
        match init fs with
        | inl e => ([EvPrintLooking; EvResolve; EvPrintStart; EvOpenInlet], inl e)
        | inr st0 =>
            match loop notch compute_band_powers fs st0 (pulls env) with
            | (tl, inl e) =>
                ([EvPrintLooking; EvResolve; EvPrintStart; EvOpenInlet; EvPrintHint]
                   ++ tl, inl e)
            | (tl, inr st) =>
                ([EvPrintLooking; EvResolve; EvPrintStart; EvOpenInlet; EvPrintHint]
                   ++ tl ++ [EvPrintClosing], inr st)
            end
        end
    end.
Proof.
  unfold main.
  destruct (Nat.eqb (length (streams env)) 0); [reflexivity |].
  destruct (sampling_rate (nominal_srate env)) as [e | fs]; [reflexivity |].
  rewrite !bind_emit, bind_lift_inr.
  destruct (init fs) as [e | st0]; [reflexivity |].
  rewrite bind_lift_inr, bind_emit.
  destruct (loop notch compute_band_powers fs st0 (pulls env)) as [tl [e | st]];
    reflexivity.
Qed.

End RunFacts.

(** *** The end of a run *)

(** X1: 'Closing!' is the last thing a run prints when the loop was ended by
    the user's interrupt, and it is printed once; a run that ends with an
    exception (no stream, a bad sampling rate, an empty pull, ...) never
    prints it. *)
Theorem closing_only_after_interrupt {FState : Type}
        (notch : Filter float64 FState)
        (compute_band_powers : list float64 -> Z -> BandPowerVector)
        (env : Env) :
  match snd (main notch compute_band_powers env) with
  | inr _ =>
      last (fst (main notch compute_band_powers env)) EvResolve = EvPrintClosing /\
      count_events is_closing (fst (main notch compute_band_powers env)) = 1%nat
  | inl _ =>
      count_events is_closing (fst (main notch compute_band_powers env)) = 0%nat
  end.
Proof.
  rewrite main_unfold.
  destruct (Nat.eqb (length (streams env)) 0); [reflexivity |].
  destruct (sampling_rate (nominal_srate env)) as [e | fs]; [reflexivity |].
  destruct (init fs) as [e | st0]; [reflexivity |].
  pose proof (loop_no_closing notch compute_band_powers fs (pulls env) st0) as Hno.
  destruct (loop notch compute_band_powers fs st0 (pulls env)) as [tl [e | st]];
    cbn [fst snd] in *.
  - rewrite count_events_app, Hno. reflexivity.
  - split.
    + rewrite app_assoc. apply last_last.
    + rewrite !count_events_app, Hno. reflexivity.
Qed.

(** X2: when the loop is ended by the interrupt, between two iterations or
    from inside a blocking [pull_chunk], one signal difference and one
    band-power report have been printed for each delivered chunk, and
    [pull_chunk] has been called once per delivered chunk, plus once more
    when the interrupt landed inside a pull. *)
Theorem one_report_per_delivered_chunk {FState : Type}
        (notch : Filter float64 FState)
        (compute_band_powers : list float64 -> Z -> BandPowerVector)
        (in_pull : bool) (fs : Z) (st st' : LoopState)
        (data : list (list (list float64))) (t : list Event)
        (H : interrupted_loop notch compute_band_powers in_pull fs st data
             = (t, inr st')) :
  count_events is_diff t = length data /\
  count_events is_report t = length data /\
  count_events is_pull t = (length data + (if in_pull then 1 else 0))%nat.
Proof.
  unfold interrupted_loop in H.
  destruct (bind_inr_inv _ _ _ _ H) as (t1 & st1 & t2 & Hloop & Hend & ->).
  destruct (loop_counts notch compute_band_powers fs _ _ _ _ Hloop)
    as (Hp & Hd & Hr & _).
  rewrite !count_events_app, Hp, Hd, Hr.
  destruct in_pull.
  - destruct (max_samples fs) as [m |]; [| discriminate Hend].
    cbn in Hend. injection Hend as <- _. cbn. repeat split; lia.
  - cbn in Hend. injection Hend as <- _. cbn. repeat split; lia.
Qed.

Lemma one_report_per_delivered_chunk_witness :
  interrupted_loop example_notch example_band_powers true 256 example_state0
                   example_pulls
  = (fst (interrupted_loop example_notch example_band_powers true 256
            example_state0 example_pulls), inr example_final) /\
  count_events is_report
    (fst (interrupted_loop example_notch example_band_powers true 256
            example_state0 example_pulls)) = 3%nat /\
  count_events is_pull
    (fst (interrupted_loop example_notch example_band_powers true 256
            example_state0 example_pulls)) = 4%nat.
Proof.
  assert (H : interrupted_loop example_notch example_band_powers true 256
                example_state0 example_pulls
              = (fst (interrupted_loop example_notch example_band_powers true 256
                        example_state0 example_pulls), inr example_final))
    by (vm_compute; reflexivity).
  split; [exact H |].
  exact (proj2 (one_report_per_delivered_chunk example_notch example_band_powers
                  true 256 example_state0 example_final example_pulls _ H)).
Defined.

Lemma example_run_ok :
  main example_notch example_band_powers example_env
  = (fst (main example_notch example_band_powers example_env), inr example_final).
Proof. vm_compute. reflexivity. Defined.

(** X3: there is no debounce: in a run ended by the interrupt the number of
    key presses is the number of pulls whose peak-to-peak amplitude is above
    the threshold, each pull being judged on its own. *)
Theorem one_press_per_blinking_chunk {FState : Type}
        (notch : Filter float64 FState)
        (compute_band_powers : list float64 -> Z -> BandPowerVector)
        (env : Env) (t : list Event) (st : LoopState)
        (H : main notch compute_band_powers env = (t, inr st)) :
  count_events is_press t = length (filter chunk_blinks (pulls env)).
Proof.
  rewrite main_unfold in H.
  destruct (Nat.eqb (length (streams env)) 0); [discriminate H |].
  destruct (sampling_rate (nominal_srate env)) as [e | fs]; [discriminate H |].
  destruct (init fs) as [e | st0]; [discriminate H |].
  destruct (loop notch compute_band_powers fs st0 (pulls env))
    as [tl [e | st1]] eqn:Hloop; [discriminate H |].
  apply (f_equal fst) in H. cbn [fst] in H. rewrite <- H.
  destruct (loop_counts notch compute_band_powers fs _ _ _ _ Hloop)
    as (_ & _ & _ & Hk).
  rewrite !count_events_app, Hk. cbn. lia.
Qed.

Lemma one_press_per_blinking_chunk_witness :
  main example_notch example_band_powers example_env
  = (fst (main example_notch example_band_powers example_env), inr example_final) /\
  count_events is_press (fst (main example_notch example_band_powers example_env))
  = 2%nat.
Proof.
  split; [exact example_run_ok |].
  exact (one_press_per_blinking_chunk example_notch example_band_powers
           example_env _ example_final example_run_ok).
Defined.

(** X11: the first exception ends the loop: when the pulls [before] are
    processed and the next one raises, the run stops with that exception and
    the trace up to it, whatever was to be pulled afterwards. *)
Theorem exception_ends_loop {FState : Type}
        (notch : Filter float64 FState)
        (compute_band_powers : list float64 -> Z -> BandPowerVector)
        (fs : Z) (st st1 : LoopState)
        (before after : list (list (list float64)))
        (eeg_data : list (list float64)) (t1 t2 : list Event) (e : Exn)
        (Hbefore : loop notch compute_band_powers fs st before = (t1, inr st1))
        (Hraise : iteration notch compute_band_powers fs st1 eeg_data = (t2, inl e)) :
  loop notch compute_band_powers fs st (before ++ eeg_data :: after)
  = (t1 ++ t2, inl e).
Proof.
  rewrite loop_app, Hbefore. cbn [bind]. rewrite loop_cons, Hraise. reflexivity.
Qed.

Lemma exception_ends_loop_witness :
  loop example_notch example_band_powers 256 example_state0 [blink_chunk]
  = (fst (loop example_notch example_band_powers 256 example_state0 [blink_chunk]),
     inr example_state1) /\
  iteration example_notch example_band_powers 256 example_state1 []
  = ([EvPull 51], inl IndexError) /\
  loop example_notch example_band_powers 256 example_state0
       ([blink_chunk] ++ [] :: [blink_chunk])
  = (fst (loop example_notch example_band_powers 256 example_state0 [blink_chunk])
       ++ [EvPull 51], inl IndexError).
Proof.
  assert (H1 : loop example_notch example_band_powers 256 example_state0 [blink_chunk]
               = (fst (loop example_notch example_band_powers 256 example_state0
                         [blink_chunk]), inr example_state1))
    by (vm_compute; reflexivity).
  assert (H2 : iteration example_notch example_band_powers 256 example_state1 []
               = ([EvPull 51], inl IndexError))
    by (vm_compute; reflexivity).
  split; [exact H1 |]. split; [exact H2 |].
  exact (exception_ends_loop example_notch example_band_powers 256 example_state0
           example_state1 [blink_chunk] [blink_chunk] [] _ _ IndexError H1 H2).
Defined.

(** *** What the blink test looks at *)

(** X4: the key press depends on the pulled data alone: two passes over the
    same pull press or do not press together, whatever the sampling rate,
    the buffers, the filter and its state, and the estimator are. *)
Theorem key_press_depends_on_pull_only {FState1 FState2 : Type}
        (notch1 : Filter float64 FState1) (notch2 : Filter float64 FState2)
        (estimator1 estimator2 : list float64 -> Z -> BandPowerVector)
        (fs1 fs2 : Z) (st1 : @LoopState FState1) (st2 : @LoopState FState2)
        (eeg_data : list (list float64)) :
  fired (fst (process_chunk notch1 estimator1 fs1 st1 eeg_data))
  = fired (fst (process_chunk notch2 estimator2 fs2 st2 eeg_data)).
Proof. now rewrite !process_chunk_fired_blinks. Qed.

(** X8: only channel 0 is read: a pull and the same pull stripped of its
    other channels are processed alike (same trace, same next state or same
    exception). *)
Theorem other_channels_ignored {FState : Type}
        (notch : Filter float64 FState)
        (compute_band_powers : list float64 -> Z -> BandPowerVector)
        (fs : Z) (st : LoopState)
        (r0 : list float64) (rest : list (list float64))
        (Hchannels : r0 <> [])
        (Hrect : Forall (fun r => length r = length r0) rest) :
  process_chunk notch compute_band_powers fs st (r0 :: rest)
  = process_chunk notch compute_band_powers fs st
      (map (fun r => [nth 0 r zero]) (r0 :: rest)).
Proof.
  assert (H1 := select_channel_ok r0 rest Hchannels Hrect).
  assert (H2 : select_channel (map (fun r => [nth 0 r zero]) (r0 :: rest))
               = inr (map (fun r => nth 0 r zero) (r0 :: rest))).
  { cbn [map]. rewrite select_channel_ok.
    - cbn [map nth]. rewrite map_map. reflexivity.
    - discriminate.
    - apply Forall_forall. intros r Hin. apply in_map_iff in Hin.
      destruct Hin as (r' & <- & _). reflexivity. }
  unfold process_chunk. now rewrite H1, H2.
Qed.

Lemma other_channels_ignored_witness :
  muse_sample 0 <> [] /\
  Forall (fun r => length r = length (muse_sample 0))
         [muse_sample 300; muse_sample 0] /\
  process_chunk example_notch example_band_powers 256 example_state0 blink_chunk
  = process_chunk example_notch example_band_powers 256 example_state0
      (map (fun r => [nth 0 r zero]) blink_chunk).
Proof.
  assert (H1 : muse_sample 0 <> []) by discriminate.
  assert (H2 : Forall (fun r => length r = length (muse_sample 0))
                      [muse_sample 300; muse_sample 0])
    by (repeat constructor).
  split; [exact H1 |]. split; [exact H2 |].
  exact (other_channels_ignored example_notch example_band_powers 256
           example_state0 (muse_sample 0) [muse_sample 300; muse_sample 0] H1 H2).
Defined.

(** *** NaN and flat pulls *)

(** X5: a pull whose first sample is NaN never presses the key, whatever
    follows it: no later sample compares greater or smaller than NaN, so the
    maximum and the minimum both stay NaN. *)
Theorem nan_first_sample_never_fires {FState : Type}
        (notch : Filter float64 FState)
        (compute_band_powers : list float64 -> Z -> BandPowerVector)
        (fs : Z) (st : LoopState)
        (eeg_data : list (list float64)) (rest : list float64)
        (Hsel : select_channel eeg_data = inr (S754_nan :: rest)) :
  py_max (S754_nan :: rest) = inr S754_nan /\
  py_min (S754_nan :: rest) = inr S754_nan /\
  fired (fst (process_chunk notch compute_band_powers fs st eeg_data)) = false.
Proof.
  assert (Hmx : py_max (S754_nan :: rest) = inr S754_nan)
    by (cbn [py_max]; now rewrite fold_max_nan).
  assert (Hmn : py_min (S754_nan :: rest) = inr S754_nan)
    by (cbn [py_min]; now rewrite fold_min_nan).
  split; [exact Hmx |]. split; [exact Hmn |].
  rewrite (process_chunk_fired notch compute_band_powers fs st eeg_data
             _ _ _ Hsel Hmx Hmn).
  reflexivity.
Qed.

Lemma nan_first_sample_never_fires_witness :
  select_channel nan_first_chunk = inr [S754_nan; of_Z 300] /\
  fired (fst (process_chunk example_notch example_band_powers 256 example_state0
                nan_first_chunk)) = false.
Proof.
  assert (H : select_channel nan_first_chunk = inr [S754_nan; of_Z 300])
    by reflexivity.
  split; [exact H |].
  exact (proj2 (proj2 (nan_first_sample_never_fires example_notch
                         example_band_powers 256 example_state0
                         nan_first_chunk [of_Z 300] H))).
Defined.

(** X6: a NaN sample that is not the first of its pull is passed over by
    the blink test: the pull presses the key exactly when the pull without
    that sample does. *)
Theorem nan_after_first_ignored {FState : Type}
        (notch : Filter float64 FState)
        (compute_band_powers : list float64 -> Z -> BandPowerVector)
        (fs : Z) (st : LoopState)
        (with_nan without : list (list float64))
        (x : float64) (l1 l2 : list float64)
        (Hwith : select_channel with_nan = inr (x :: l1 ++ S754_nan :: l2))
        (Hwithout : select_channel without = inr (x :: l1 ++ l2)) :
  fired (fst (process_chunk notch compute_band_powers fs st with_nan))
  = fired (fst (process_chunk notch compute_band_powers fs st without)).
Proof.
  rewrite !process_chunk_fired_blinks. unfold chunk_blinks.
  rewrite Hwith, Hwithout. cbn [py_max py_min].
  now rewrite fold_max_skip_nan, fold_min_skip_nan.
Qed.

Lemma nan_after_first_ignored_witness :
  select_channel nan_inside_chunk = inr (of_Z 0 :: [] ++ S754_nan :: [of_Z 300]) /\
  select_channel [muse_sample 0; muse_sample 300] = inr (of_Z 0 :: [] ++ [of_Z 300]) /\
  fired (fst (process_chunk example_notch example_band_powers 256 example_state0
                nan_inside_chunk))
  = fired (fst (process_chunk example_notch example_band_powers 256 example_state0
                  [muse_sample 0; muse_sample 300])).
Proof.
  assert (H1 : select_channel nan_inside_chunk
               = inr (of_Z 0 :: [] ++ S754_nan :: [of_Z 300])) by reflexivity.
  assert (H2 : select_channel [muse_sample 0; muse_sample 300]
               = inr (of_Z 0 :: [] ++ [of_Z 300])) by reflexivity.
  split; [exact H1 |]. split; [exact H2 |].
  exact (nan_after_first_ignored example_notch example_band_powers 256
           example_state0 _ _ (of_Z 0) [] [of_Z 300] H1 H2).
Defined.

(** X7: a flat pull, all of whose samples on channel 0 are the same value,
    never presses the key, however many samples it has. *)
Theorem flat_chunk_never_fires {FState : Type}
        (notch : Filter float64 FState)
        (compute_band_powers : list float64 -> Z -> BandPowerVector)
        (fs : Z) (st : LoopState)
        (eeg_data : list (list float64)) (x : float64) (n : nat)
        (Hsel : select_channel eeg_data = inr (repeat x (S n))) :
  fired (fst (process_chunk notch compute_band_powers fs st eeg_data)) = false.
Proof.
  assert (Hmx : py_max (repeat x (S n)) = inr x)
    by (cbn [repeat py_max]; now rewrite fold_max_flat).
  assert (Hmn : py_min (repeat x (S n)) = inr x)
    by (cbn [repeat py_min]; now rewrite fold_min_flat).
  rewrite (process_chunk_fired notch compute_band_powers fs st eeg_data
             _ _ _ Hsel Hmx Hmn).
  apply sub_self_below_threshold.
Qed.

Lemma flat_chunk_never_fires_witness :
  select_channel (repeat (muse_sample 300) 3) = inr (repeat (of_Z 300) 3) /\
  fired (fst (process_chunk example_notch example_band_powers 256 example_state0
                (repeat (muse_sample 300) 3))) = false.
Proof.
  assert (H : select_channel (repeat (muse_sample 300) 3) = inr (repeat (of_Z 300) 3))
    by reflexivity.
  split; [exact H |].
  exact (flat_chunk_never_fires example_notch example_band_powers 256
           example_state0 _ (of_Z 300) 2 H).
Defined.

(** *** The size of a pull *)

Lemma pull_size_checked : forallb pull_size_agrees (seq 0 2001) = true.
Proof. vm_compute. reflexivity. Qed.

(** X9: for every sampling rate from 0 to 2000 Hz the pull asks for at most
    [fs / 5] samples (rounded down), and for one sample less when the rate is
    a positive multiple of five, because the binary64 [SHIFT_LENGTH] is
    below 0.2: 49 at 250 Hz, 51 at 256 Hz. *)
Theorem pull_asks_for_a_fifth_of_the_rate {FState : Type}
        (notch : Filter float64 FState)
        (compute_band_powers : list float64 -> Z -> BandPowerVector)
        (fs : Z) (st : LoopState) (eeg_data : list (list float64))
        (Hrange : 0 <= fs <= 2000) :
  max_samples fs = Some (pull_size fs) /\
  fst (iteration notch compute_band_powers fs st eeg_data)
  = EvPull (pull_size fs)
      :: fst (process_chunk notch compute_band_powers fs st eeg_data).
Proof.
  assert (Hms : max_samples fs = Some (pull_size fs)).
  { pose proof pull_size_checked as Hall. rewrite forallb_forall in Hall.
    specialize (Hall (Z.to_nat fs)).
    assert (Hin : In (Z.to_nat fs) (seq 0 2001)) by (apply in_seq; lia).
    specialize (Hall Hin). unfold pull_size_agrees in Hall.
    rewrite Z2Nat.id in Hall by lia.
    destruct (max_samples fs) as [m |]; [| discriminate Hall].
    apply Z.eqb_eq in Hall. now subst m. }
  split; [exact Hms |].
  rewrite iteration_unfold, Hms. reflexivity.
Qed.

Lemma pull_asks_for_a_fifth_of_the_rate_witness :
  0 <= 250 <= 2000 /\
  max_samples 250 = Some 49 /\
  fst (iteration example_notch example_band_powers 250 example_state0 blink_chunk)
  = EvPull 49
      :: fst (process_chunk example_notch example_band_powers 250 example_state0
                blink_chunk).
Proof.
  assert (H : 0 <= 250 <= 2000) by lia.
  split; [exact H |].
  exact (pull_asks_for_a_fifth_of_the_rate example_notch example_band_powers
           250 example_state0 blink_chunk H).
Defined.

(** *** A negative sampling rate *)

(** X10: when a stream is found but reports a negative nominal rate, the
    script raises [ValueError] while allocating the sample buffer: the inlet
    was opened, the hint is not printed and nothing is pulled. *)
Theorem negative_rate_fails_before_first_pull {FState : Type}
        (notch : Filter float64 FState)
        (compute_band_powers : list float64 -> Z -> BandPowerVector)
        (env : Env) (fs : Z)
        (Hstream : streams env <> [])
        (Hrate : sampling_rate (nominal_srate env) = inr fs)
        (Hneg : fs < 0) :
  main notch compute_band_powers env
  = ([EvPrintLooking; EvResolve; EvPrintStart; EvOpenInlet], inl ValueError).
Proof.
  rewrite main_unfold, Hrate.
  destruct (streams env) as [| s others]; [congruence |]. cbn [length Nat.eqb].
  unfold init, np_zeros.
  assert (H : (fs * BUFFER_LENGTH <? 0) = true)
    by (apply Z.ltb_lt; unfold BUFFER_LENGTH; lia).
  now rewrite H.
Qed.

Lemma negative_rate_fails_before_first_pull_witness :
  streams (mkEnv [0%nat] (of_Z (-256)) example_pulls) <> [] /\
  sampling_rate (nominal_srate (mkEnv [0%nat] (of_Z (-256)) example_pulls))
  = inr (-256) /\
  -256 < 0 /\
  main example_notch example_band_powers (mkEnv [0%nat] (of_Z (-256)) example_pulls)
  = ([EvPrintLooking; EvResolve; EvPrintStart; EvOpenInlet], inl ValueError).
Proof.
  assert (H1 : streams (mkEnv [0%nat] (of_Z (-256)) example_pulls) <> [])
    by discriminate.
  assert (H2 : sampling_rate (nominal_srate (mkEnv [0%nat] (of_Z (-256)) example_pulls))
               = inr (-256)) by reflexivity.
  assert (H3 : -256 < 0) by lia.
  split; [exact H1 |]. split; [exact H2 |]. split; [exact H3 |].
  exact (negative_rate_fails_before_first_pull example_notch example_band_powers
           _ (-256) H1 H2 H3).
Defined.

(** *** The order of events in an iteration *)

(** X12: the events of an iteration that completes come in this order: the
    pull, the printed signal difference, the key press and its message when
    the pull blinks, and last the report of the mean of the updated band
    buffer. *)
Theorem iteration_trace_order {FState : Type}
        (notch : Filter float64 FState)
        (compute_band_powers : list float64 -> Z -> BandPowerVector)
        (fs : Z) (st st' : LoopState) (eeg_data : list (list float64))
        (t : list Event)
        (H : iteration notch compute_band_powers fs st eeg_data = (t, inr st')) :
  exists m d,
    max_samples fs = Some m /\
    t = EvPull m :: EvPrintDiff d
          :: (if chunk_blinks eeg_data then [EvPress; EvPrintBlink] else [])
          ++ [EvPrintBands (np_mean_axis0 (band_buffer st'))].
Proof.
  destruct (iteration_inv notch compute_band_powers _ _ _ _ _ H)
    as (m & t' & Hm & -> & Hpc).
  destruct (process_chunk_trace notch compute_band_powers _ _ _ _ _ Hpc)
    as (d & ->).
  exists m, d. split; [exact Hm | reflexivity].
Qed.

Lemma iteration_trace_order_witness :
  iteration example_notch example_band_powers 256 example_state0 blink_chunk
  = (fst (iteration example_notch example_band_powers 256 example_state0 blink_chunk),
     inr example_state1) /\
  exists m d,
    max_samples 256 = Some m /\
    fst (iteration example_notch example_band_powers 256 example_state0 blink_chunk)
    = EvPull m :: EvPrintDiff d
        :: (if chunk_blinks blink_chunk then [EvPress; EvPrintBlink] else [])
        ++ [EvPrintBands (np_mean_axis0 (band_buffer example_state1))].
Proof.
  assert (H : iteration example_notch example_band_powers 256 example_state0
                blink_chunk
              = (fst (iteration example_notch example_band_powers 256
                        example_state0 blink_chunk), inr example_state1))
    by (vm_compute; reflexivity).
  split; [exact H |].
  exact (iteration_trace_order example_notch example_band_powers 256
           example_state0 example_state1 blink_chunk _ H).
Defined.
